(** * The Cannon, version 1.3: [cannon/dataset.py]

    A shallow embedding of the [Dataset] class and of the diagnostics
    that run on a reference set and a test set, with the properties of
    both that the design document states.

    Python objects are mutated in place and keep their mutations when an
    exception propagates, so methods are modelled in a state-and-exception
    monad. Numbers are kept behind an interface with two instances: the
    binary64 floats that numpy computes with, and the real numbers that
    the design document reasons with. *)

From Stdlib Require Import Floats.
From Stdlib Require Import Reals Lra.
From stdpp Require Import gmap strings list pretty.

Local Open Scope string_scope.
Local Open Scope list_scope.
Local Open Scope nat_scope.

(** ** Python exceptions and results *)

(** An exception is its class name and its message. *)
Record exn := Exn { exn_class : string; exn_msg : string }.

Inductive result (A : Type) : Type :=
| Ok (a : A)
| Raise (e : exn).
Arguments Ok {A} a.
Arguments Raise {A} e.

Definition rbind {A B} (r : result A) (k : A → result B) : result B :=
  match r with
  | Ok a => k a
  | Raise e => Raise e
  end.

Notation "'try!' x := r 'in' k" := (rbind r (λ x, k))
  (at level 10, x name, r at level 100, k at level 200,
   format "'[v' 'try!'  x  :=  r  'in' '/' k ']'").


(** A computation on a mutable object of type [S]: it returns the object
    as the computation left it, whether it returned or raised. *)
Definition Py (S A : Type) : Type := S → S * result A.

Definition ret {S A} (a : A) : Py S A := λ s, (s, Ok a).
Definition throw {S A} (e : exn) : Py S A := λ s, (s, Raise e).
Definition lift {S A} (r : result A) : Py S A := λ s, (s, r).
Definition modify {S} (f : S → S) : Py S unit := λ s, (f s, Ok tt).

Definition bind {S A B} (m : Py S A) (k : A → Py S B) : Py S B :=
  λ s, match m s with
       | (s', Ok a) => k a s'
       | (s', Raise e) => (s', Raise e)
       end.

Notation "'do!' x := m 'in' k" := (bind m (λ x, k))
  (at level 10, x name, m at level 100, k at level 200,
   format "'[v' 'do!'  x  :=  m  'in' '/' k ']'").
Notation "m ;;; k" := (bind m (λ _, k))
  (at level 100, k at level 200, right associativity).

(** [for x in xs: body x] *)
Fixpoint for_each {S A} (xs : list A) (body : A → Py S unit) : Py S unit :=
  match xs with
  | [] => ret tt
  | x :: rest => body x ;;; for_each rest body
  end.

(** ** Numbers *)

(** The operations the module applies to array elements. [of_Z] reads an
    integer literal or a count as a number. *)
Class Numeric := {
  num : Type;
  of_Z : Z → num;
  nadd : num → num → num;
  nsub : num → num → num;
  nmul : num → num → num;
  ndiv : num → num → num;
  nsqrt : num → num;
  nltb : num → num → bool;
}.

(** [x > y] is [y < x]. *)
Definition ngtb `{Numeric} (x y : num) : bool := nltb y x.

(** numpy's float64. *)
Definition float_of_Z (z : Z) : float :=
  match z with
  | Z0 => PrimFloat.zero
  | Zpos _ => PrimFloat.of_uint63 (Uint63.of_Z z)
  | Zneg _ => PrimFloat.opp (PrimFloat.of_uint63 (Uint63.of_Z (Z.opp z)))
  end.

Definition binary64 : Numeric := {|
  num := float;
  of_Z := float_of_Z;
  nadd := PrimFloat.add;
  nsub := PrimFloat.sub;
  nmul := PrimFloat.mul;
  ndiv := PrimFloat.div;
  nsqrt := PrimFloat.sqrt;
  nltb := PrimFloat.ltb;
|}.

(** Exact arithmetic on the reals. *)
Definition Rltb (x y : R) : bool := if Rlt_dec x y then true else false.

Definition exact : Numeric := {|
  num := R;
  of_Z := IZR;
  nadd := Rplus;
  nsub := Rminus;
  nmul := Rmult;
  ndiv := Rdiv;
  nsqrt := sqrt;
  nltb := Rltb;
|}.

(** ** numpy arrays *)

Section Arrays.
Context {N : Numeric}.

(** A two-dimensional array, row-major. [ncols] is kept apart from the
    rows, as an array with no row still has its second dimension. *)
Record ndarray := NdArray { ncols : nat; rows : list (list num) }.

Definition nrows (a : ndarray) : nat := length (rows a).

Definition IndexError_axis (i axis size : nat) : exn :=
  Exn "IndexError"
    ("index " +:+ pretty i +:+ " is out of bounds for axis " +:+ pretty axis
     +:+ " with size " +:+ pretty size).

(** [a[i]] on a one-dimensional array, for [i >= 0]. *)
Definition item {A} (a : list A) (i : nat) : result A :=
  match a !! i with
  | Some x => Ok x
  | None => Raise (IndexError_axis i 0 (length a))
  end.

(** [a[:, i]] *)
Definition column (a : ndarray) (i : nat) : result (list num) :=
  if decide (i < ncols a)
  then Ok (map (λ row, nth i row (of_Z 0)) (rows a))
  else Raise (IndexError_axis i 1 (ncols a)).

(** [np.array(cols).T] for a list of one-dimensional arrays of the same
    length: row [r] of the result holds entry [r] of every array. *)
Definition np_array_T (cols : list (list num)) : ndarray :=
  let n := match cols with [] => 0 | c :: _ => length c end in
  {| ncols := length cols;
     rows := map (λ r, map (λ c, nth r c (of_Z 0)) cols) (seq 0 n) |}.

(** [a[m]] for a boolean array [m]: the entries of [a] where [m] holds. *)
Fixpoint compress {A} (m : list bool) (a : list A) : list A :=
  match m, a with
  | b :: m', x :: a' => if b then x :: compress m' a' else compress m' a'
  | _, _ => []
  end.

Definition bool_index {A} (a : list A) (m : list bool) : result (list A) :=
  if decide (length m = length a)
  then Ok (compress m a)
  else Raise (Exn "IndexError"
    ("boolean index did not match indexed array along axis 0; size of axis is "
     +:+ pretty (length a) +:+ " but size of corresponding boolean axis is "
     +:+ pretty (length m))).

(** [np.add.reduce]: the entries are added from the left. *)
Definition np_sum (xs : list num) : num :=
  match xs with
  | [] => of_Z 0
  | x :: rest => foldl nadd x rest
  end.

Definition count (xs : list num) : num := of_Z (Z.of_nat (length xs)).

(** [np.mean] and [np.std] of one column; [np.std] divides by the number
    of entries (ddof = 0). *)
Definition np_mean (xs : list num) : num := ndiv (np_sum xs) (count xs).

Definition np_std (xs : list num) : num :=
  let arrmean := np_mean xs in
  let x := map (λ v, nsub v arrmean) xs in
  nsqrt (ndiv (np_sum (map (λ d, nmul d d) x)) (count xs)).

(** [np.mean(a, 0)] and [np.std(a, 0)]: one number per column. *)
Definition columns (a : ndarray) : list (list num) :=
  map (λ j, map (λ row, nth j row (of_Z 0)) (rows a)) (seq 0 (ncols a)).

Definition np_mean0 (a : ndarray) : list num := map np_mean (columns a).
Definition np_std0 (a : ndarray) : list num := map np_std (columns a).

(** [sum(warning)] on a boolean array. *)
Definition py_sum (m : list bool) : nat :=
  foldl (λ acc (b : bool), acc + (if b then 1 else 0)) 0 m.

(** Python's [min] and [max] of a sequence keep the first of equal
    entries and reject the empty sequence. *)
Definition py_min (xs : list num) : result num :=
  match xs with
  | [] => Raise (Exn "ValueError" "min() arg is an empty sequence")
  | x :: rest => Ok (foldl (λ m y, if nltb y m then y else m) x rest)
  end.

Definition py_max (xs : list num) : result num :=
  match xs with
  | [] => Raise (Exn "ValueError" "max() arg is an empty sequence")
  | x :: rest => Ok (foldl (λ m y, if ngtb y m then y else m) x rest)
  end.

Definition np_minimum (a b : num) : num := if nltb b a then b else a.
Definition np_maximum (a b : num) : num := if ngtb b a then b else a.

(** [a - b] on one-dimensional arrays: equal lengths, or one of them of
    length one and repeated. *)
Definition np_subtract (a b : list num) : result (list num) :=
  if decide (length a = length b) then Ok (zip_with nsub a b)
  else match a, b with
       | [x], _ => Ok (map (λ y, nsub x y) b)
       | _, [y] => Ok (map (λ x, nsub x y) a)
       | _, _ => Raise (Exn "ValueError"
           ("operands could not be broadcast together with shapes ("
            +:+ pretty (length a) +:+ ",) (" +:+ pretty (length b) +:+ ",) "))
       end.

(** [for each x in xs: f x], collecting results, stopping at the first
    exception. *)
Fixpoint traverse {A B} (f : A → result B) (xs : list A) : result (list B) :=
  match xs with
  | [] => Ok []
  | x :: rest =>
      try! y := f x in
      try! ys := traverse f rest in
      Ok (y :: ys)
  end.

(** ** The label table *)

(** Modelled from the spec: the table class behind [Dataset.data]
    ([add_column], [resolve_alias], [select], [where], membership and
    item lookup) is not among the sources. The design document has it as
    a table keyed by label name with an [id] column, one row per star,
    row order significant, and an optional alias table whose resolution
    is a pure lookup. The [id] column holds strings and is kept apart
    from the named columns, which hold numbers. *)
Record Table := {
  tbl_ids : list string;
  tbl_cols : gmap string (list num);
  tbl_aliases : gmap string string;
}.

Definition table_len (t : Table) : nat := length (tbl_ids t).

(** Every column has one entry per row. *)
Definition table_wf (t : Table) : Prop :=
  map_Forall (λ _ c, length c = table_len t) (tbl_cols t).

Definition resolve_alias (t : Table) (k : string) : string :=
  default k (tbl_aliases t !! k).

(** [key in data] *)
Definition contains (t : Table) (key : string) : bool :=
  bool_decide (is_Some (tbl_cols t !! key)).

(** [data[key]] *)
Definition getitem (t : Table) (key : string) : result (list num) :=
  match tbl_cols t !! key with
  | Some c => Ok c
  | None => Raise (Exn "KeyError" key)
  end.

(** [data.add_column(name, values)]: a new column; a column of that name
    already there, or a wrong number of rows, is a [SchemaError]. *)
Definition add_column (t : Table) (name : string) (values : list num)
  : result Table :=
  if contains t name
  then Raise (Exn "SchemaError" ("column " +:+ name +:+ " already exists"))
  else if decide (length values = table_len t)
  then Ok {| tbl_ids := tbl_ids t;
             tbl_cols := <[name := values]> (tbl_cols t);
             tbl_aliases := tbl_aliases t |}
  else Raise (Exn "SchemaError" "row counts disagree").

(** [data.select('*', indices=m)]: every column, the rows where [m]
    holds; the table indexes its rows as numpy does. *)
Definition select (t : Table) (m : list bool) : result Table :=
  try! ids := bool_index (tbl_ids t) m in
  Ok {| tbl_ids := ids;
        tbl_cols := compress m <$> tbl_cols t;
        tbl_aliases := tbl_aliases t |}.

(** [data.where(cond)] evaluates a condition written as a string on the
    table and gives the boolean mask of the rows that meet it. The
    language of conditions is the table's own: its evaluator is a
    parameter. *)
Variable table_where : Table → string → result (list bool).

(** ** [class Dataset] *)

(** [label_names] is [None] when the constructor got no names.
    [label_names_tex] is an attribute that only [set_label_names_tex]
    creates: [None] here is the missing attribute, [Some None] the
    attribute holding [None]. [_label_vals] is [None] or an array. *)
Record Dataset := {
  data : Table;
  label_names : option (list string);
  label_names_tex : option (option (list string));
  lams : list (list num);
  fluxes : list (list num);
  ivars : list (list num);
  _label_vals : option ndarray;
}.

Definition set_data (v : Table) (self : Dataset) : Dataset :=
  {| data := v; label_names := label_names self;
     label_names_tex := label_names_tex self; lams := lams self;
     fluxes := fluxes self; ivars := ivars self;
     _label_vals := _label_vals self |}.

Definition set_label_names (v : option (list string)) (self : Dataset) : Dataset :=
  {| data := data self; label_names := v;
     label_names_tex := label_names_tex self; lams := lams self;
     fluxes := fluxes self; ivars := ivars self;
     _label_vals := _label_vals self |}.

Definition set_fluxes (v : list (list num)) (self : Dataset) : Dataset :=
  {| data := data self; label_names := label_names self;
     label_names_tex := label_names_tex self; lams := lams self;
     fluxes := v; ivars := ivars self;
     _label_vals := _label_vals self |}.

Definition set_ivars (v : list (list num)) (self : Dataset) : Dataset :=
  {| data := data self; label_names := label_names self;
     label_names_tex := label_names_tex self; lams := lams self;
     fluxes := fluxes self; ivars := v;
     _label_vals := _label_vals self |}.

Definition set__label_vals (v : option ndarray) (self : Dataset) : Dataset :=
  {| data := data self; label_names := label_names self;
     label_names_tex := label_names_tex self; lams := lams self;
     fluxes := fluxes self; ivars := ivars self;
     _label_vals := v |}.

(** [reset_label_vals], [set_label_vals], [set_label_names_tex] *)
Definition reset_label_vals (self : Dataset) : Dataset :=
  set__label_vals None self.

Definition set_label_vals (vals : ndarray) (self : Dataset) : Dataset :=
  set__label_vals (Some vals) self.

Definition set_label_names_tex (names : option (list string))
    (self : Dataset) : Dataset :=
  {| data := data self; label_names := label_names self;
     label_names_tex := Some names; lams := lams self;
     fluxes := fluxes self; ivars := ivars self;
     _label_vals := _label_vals self |}.

(** [Dataset.__init__]; the argument [label_names_tex] is not used. *)
Definition init (label_vals : Table) (SNRs : list num)
    (lams fluxes ivars : list (list num))
    (label_names : option (list string)) : result Dataset :=
  try! d := add_column label_vals "SNRs" SNRs in
  Ok (reset_label_vals
        {| data := d; label_names := label_names; label_names_tex := None;
           lams := lams; fluxes := fluxes; ivars := ivars;
           _label_vals := None |}).

(** The properties [IDs] and [SNRs]. *)
Definition IDs (self : Dataset) : list string := tbl_ids (data self).
Definition SNRs (self : Dataset) : result (list num) :=
  getitem (data self) "SNRs".

Definition get_plotting_labels (self : Dataset)
  : result (option (list string)) :=
  match label_names_tex self with
  | None => Raise (Exn "AttributeError"
              "'Dataset' object has no attribute 'label_names_tex'")
  | Some None => Ok (label_names self)
  | Some (Some tex) => Ok (Some tex)
  end.

(** Reading the state of the object inside a method. *)
Definition gets {S A} (f : S → result A) : Py S A := λ s, (s, f s).

(** [choose_labels]: the names are appended one at a time to a list that
    starts empty. *)
Definition append_label (key : string) (self : Dataset) : Dataset :=
  set_label_names (Some (default [] (label_names self) ++ [key])) self.

Definition choose_labels_step (k : string) : Py Dataset unit :=
  do! key := gets (λ self, Ok (resolve_alias (data self) k)) in
  do! found := gets (λ self, Ok (contains (data self) key)) in
  if negb found
  then throw (Exn "KeyError" ("Attribute " +:+ key +:+ " not found"))
  else modify (append_label key).

Definition choose_labels (cols : list string) : Py Dataset unit :=
  modify (set_label_names (Some [])) ;;;
  for_each cols choose_labels_step.

(** [choose_objects]: a mask is a condition on the table, as a string,
    or a boolean array. *)
Inductive mask :=
| MaskCond (cond : string)
| MaskArray (m : list bool).

Definition choose_objects (mk : mask) : Py Dataset unit :=
  do! _m := gets (λ self,
              match mk with
              | MaskCond cond => table_where (data self) cond
              | MaskArray m => Ok m
              end) in
  do! d := gets (λ self, select (data self) _m) in
  modify (set_data d) ;;;
  do! f := gets (λ self, bool_index (fluxes self) _m) in
  modify (set_fluxes f) ;;;
  do! v := gets (λ self, bool_index (ivars self) _m) in
  modify (set_ivars v).

Definition some_names (names : option (list string)) : result (list string) :=
  match names with
  | Some l => Ok l
  | None => Raise (Exn "TypeError" "'NoneType' object is not iterable")
  end.

(** [np.array([self.data[k] for k in self.label_names]).T] *)
Definition table_labels (self : Dataset) : result ndarray :=
  try! names := some_names (label_names self) in
  try! cols := traverse (getitem (data self)) names in
  Ok (np_array_T cols).

(** The property [label_vals]. *)
Definition label_vals (self : Dataset) : result ndarray :=
  match _label_vals self with
  | None => table_labels self
  | Some vals => Ok vals
  end.

End Arrays.

(** ** What the diagnostics leave behind *)

(** Text files by name, the lines printed, and the names of the figures
    saved, each in the order of the calls. *)
Record World := {
  files : gmap string string;
  stdout : list string;
  figures : list string;
}.

Definition newline : string := String (Ascii.ascii_of_nat 10) "".

(** The text of a file with one identifier per line. *)
Definition lines (ids : list string) : string :=
  foldr (λ star rest, star +:+ newline +:+ rest) "" ids.

(** [open(filename, 'w')] creates the file or empties it. *)
Definition open_w (filename : string) (w : World) : World :=
  {| files := <[filename := ""]> (files w);
     stdout := stdout w; figures := figures w |}.

(** [output.write(s)] on the file opened as [filename]. *)
Definition write (filename s : string) (w : World) : World :=
  {| files := alter (λ content, content +:+ s) filename (files w);
     stdout := stdout w; figures := figures w |}.

Definition print (s : string) : Py World unit :=
  modify (λ w, {| files := files w; stdout := stdout w ++ [s];
                  figures := figures w |}).

Definition savefig (figname : string) : Py World unit :=
  modify (λ w, {| files := files w; stdout := stdout w;
                  figures := figures w ++ [figname] |}).

(** [w'] has the text files of [w], and what [w] had printed, possibly
    followed by more. *)
Definition extends (w w' : World) : Prop :=
  files w' = files w ∧ ∃ rest, stdout w' = stdout w ++ rest.

(** A computation that leaves the text files alone and only adds to what
    was printed. *)
Definition quiet {A} (m : Py World A) : Prop := ∀ w, extends w (m w).1.

(** [len(x)] and [x[i]] for a list that may be [None]. *)
Definition py_len {A} (x : option (list A)) : result nat :=
  match x with
  | Some l => Ok (length l)
  | None => Raise (Exn "TypeError" "object of type 'NoneType' has no len()")
  end.

Definition py_getitem {A} (x : option (list A)) (i : nat) : result A :=
  match x with
  | Some l => item l i
  | None => Raise (Exn "TypeError" "'NoneType' object is not subscriptable")
  end.

Section Diagnostics.
Context {N : Numeric}.

(** [corner] of [helpers/triangle.py] draws the triangle plot; it is not
    among the sources and is a parameter here. *)
Variable corner : ndarray → list string → result unit.

(** matplotlib's [scatter] wants as many [x] as [y]. *)
Definition scatter (x y : list num) : result unit :=
  if decide (length x = length y) then Ok tt
  else Raise (Exn "ValueError" "x and y must be the same size").

(** [Dataset.label_triangle_plot(figname)] *)
Definition label_triangle_plot (self : Dataset) (figname : option string)
  : Py World unit :=
  do! data := lift (table_labels self) in
  do! plotting := lift (get_plotting_labels self) in
  do! labels := lift (some_names plotting) in
  let labels := map (λ l, "$" +:+ l +:+ "$") labels in
  print "Plotting every label against every other" ;;;
  do! fig := lift (corner data labels) in
  match figname with
  | Some name => savefig name ;;; print ("Saved fig " +:+ name)
  | None => ret tt
  end.

(** The bounds [mean - 2 * stdev] and [mean + 2 * stdev], one per
    column of the reference labels. *)
Definition lower_bounds (reference_labels : ndarray) : list num :=
  zip_with nsub (np_mean0 reference_labels)
    (map (nmul (of_Z 2)) (np_std0 reference_labels)).

Definition upper_bounds (reference_labels : ndarray) : list num :=
  zip_with nadd (np_mean0 reference_labels)
    (map (nmul (of_Z 2)) (np_std0 reference_labels)).

(** [np.logical_or(test_vals < lo, test_vals > up)] *)
Definition warning_mask (test_vals : list num) (lo up : num) : list bool :=
  map (λ v, nltb v lo || ngtb v up) test_vals.

Definition flagged_filename (i : nat) : string :=
  "flagged_stars_" +:+ pretty i +:+ ".txt".

(** The three lines printed for label [i] of name [name] with
    [flagged] stars flagged. *)
Definition flag_report (name : string) (i flagged : nat) : list string :=
  [ "Reference label " +:+ name;
    "flagged " +:+ pretty flagged +:+ " stars beyond 2-sig of reference labels";
    "Saved list " +:+ flagged_filename i ].

(** [warning] for label [i]: the column of the test labels against the
    two bounds of that label. *)
Definition label_warning (test_labels : ndarray) (lower upper : list num)
    (i : nat) : result (list bool) :=
  try! test_vals := column test_labels i in
  try! lo := item lower i in
  try! up := item upper i in
  Ok (warning_mask test_vals lo up).

(** One turn of the first loop of [dataset_postdiagnostics]. *)
Definition flag_label (label_names : list string) (test_labels : ndarray)
    (test_IDs : list string) (lower upper : list num) (i : nat)
  : Py World unit :=
  do! label_name := lift (item label_names i) in
  do! warning := lift (label_warning test_labels lower upper i) in
  let filename := flagged_filename i in
  modify (open_w filename) ;;;
  do! flagged := lift (bool_index test_IDs warning) in
  for_each flagged (λ star, modify (write filename (star +:+ newline))) ;;;
  print ("Reference label " +:+ label_name) ;;;
  print ("flagged " +:+ pretty (py_sum warning)
         +:+ " stars beyond 2-sig of reference labels") ;;;
  print ("Saved list " +:+ filename).

(** One turn of the second loop: the 1-1 plot of label [i]. Creating
    the axes, drawing the line from [low] to [high], the legend, the
    titles and the histogram leave nothing behind but the saved figure. *)
Definition one_to_one_plot (reference_set : Dataset)
    (reference_labels test_labels : ndarray) (i : nat) : Py World unit :=
  do! plotting := lift (get_plotting_labels reference_set) in
  do! name := lift (py_getitem plotting i) in
  do! orig := lift (column reference_labels i) in
  do! cannon := lift (column test_labels i) in
  do! min_orig := lift (py_min orig) in
  do! min_cannon := lift (py_min cannon) in
  let low := np_minimum min_orig min_cannon in
  do! max_orig := lift (py_max orig) in
  do! max_cannon := lift (py_max cannon) in
  let high := np_maximum max_orig max_cannon in
  lift (scatter orig cannon) ;;;
  do! residuals := lift (np_subtract cannon orig) in
  let figname := "1to1_label_" +:+ pretty i +:+ ".png" in
  savefig figname ;;;
  print "Diagnostic for label output vs. input" ;;;
  print ("Saved fig " +:+ figname).

(** [dataset_postdiagnostics]: the label arrays are read once; the
    first loop writes the lists of flagged stars, then come the triangle
    plot of the test labels and the loop of 1-1 plots. *)
Definition dataset_postdiagnostics (reference_set test_set : Dataset)
    (triangle_plot_name : string) : Py World unit :=
  let label_names := label_names reference_set in
  do! nlabels := lift (py_len label_names) in
  do! reference_labels := lift (label_vals reference_set) in
  do! test_labels := lift (label_vals test_set) in
  let test_IDs := IDs test_set in
  let lower := lower_bounds reference_labels in
  let upper := upper_bounds reference_labels in
  for_each (seq 0 nlabels)
    (flag_label (default [] label_names) test_labels test_IDs lower upper) ;;;
  label_triangle_plot test_set (Some triangle_plot_name) ;;;
  for_each (seq 0 nlabels)
    (one_to_one_plot reference_set reference_labels test_labels).

(** [dataset_prediagnostics]: the histograms of the two [SNRs] columns
    go to one figure, then comes the triangle plot of the reference
    labels. Drawing the histograms, the legend and the titles leaves
    nothing behind but the saved figure. *)
Definition dataset_prediagnostics (reference_set test_set : Dataset)
    (SNR_plot_name triangle_plot_name : string) : Py World unit :=
  print "Diagnostic for SNRs of reference and survey stars" ;;;
  do! reference_SNRs := lift (SNRs reference_set) in
  do! test_SNRs := lift (SNRs test_set) in
  savefig SNR_plot_name ;;;
  print ("Saved fig " +:+ SNR_plot_name) ;;;
  label_triangle_plot reference_set (Some triangle_plot_name).

End Diagnostics.

(** ** [class DataFrame] *)

Section Frames.
Context {N : Numeric}.

(** [_dataset] is an attribute that only [load_dataset] creates: [None]
    is the missing attribute. *)
Record DataFrame := {
  spec_dir : string;
  label_file : string;
  contpix_file : string;
  _dataset : option Dataset;
}.

Definition set__dataset (v : option Dataset) (self : DataFrame) : DataFrame :=
  {| spec_dir := spec_dir self; label_file := label_file self;
     contpix_file := contpix_file self; _dataset := v |}.

(** [DataFrame.__init__] *)
Definition new_frame (spec_dir label_file contpix_file : string) : DataFrame :=
  {| spec_dir := spec_dir; label_file := label_file;
     contpix_file := contpix_file; _dataset := None |}.

(** The two methods that derived classes implement: [get_spectra] gives
    the wavelengths, the fluxes, the inverse variances and the SNRs;
    [get_reference_labels] gives the identifiers, the label names and the
    label table. *)
Record Methods := {
  get_spectra :
    DataFrame → result (list (list num) * list (list num)
                        * list (list num) * list num);
  get_reference_labels :
    DataFrame → result (list string * option (list string) * Table);
}.

(** The methods of [DataFrame] itself: [raise NotImplemented(...)] calls
    the constant [NotImplemented], which is not callable. *)
Definition not_callable : exn :=
  Exn "TypeError" "'NotImplementedType' object is not callable".

Definition DataFrame_methods : Methods := {|
  get_spectra := λ _, Raise not_callable;
  get_reference_labels := λ _, Raise not_callable;
|}.

Definition loading_line : string :=
  "Loading dataset... This may take a while".

(** The state of a frame is the object and what it has printed. *)
Definition load_dataset (cls : Methods) : Py (DataFrame * list string) unit :=
  modify (λ s, (s.1, s.2 ++ [loading_line])) ;;;
  do! spectra := gets (λ s, get_spectra cls s.1) in
  let '(lambdas, norm_fluxes, norm_ivars, SNRs) := spectra in
  do! labels := gets (λ s, get_reference_labels cls s.1) in
  let '(IDs, all_label_names, all_label_values) := labels in
  do! dataset := lift (init all_label_values SNRs lambdas norm_fluxes
                         norm_ivars all_label_names) in
  modify (λ s, (set__dataset (Some dataset) s.1, s.2)).

(** The property [dataset]. *)
Definition dataset (cls : Methods) : Py (DataFrame * list string) Dataset :=
  do! loaded := gets (λ s, Ok (bool_decide (is_Some (_dataset s.1)))) in
  (if negb loaded then load_dataset cls else ret tt) ;;;
  gets (λ s, match _dataset s.1 with
             | Some d => Ok d
             | None => Raise (Exn "AttributeError"
                         "'DataFrame' object has no attribute '_dataset'")
             end).

End Frames.

(** ** Words for the properties of the dataset *)

Section DatasetWords.
Context {N : Numeric}.

(** [k] names a column of the table, through the alias table or not. *)
Definition resolves (self : Dataset) (k : string) : Prop :=
  contains (data self) (resolve_alias (data self) k) = true.

(** What a state keeps when only [label_names] may differ. *)
Definition same_but_names (self self' : Dataset) : Prop :=
  data self' = data self
  ∧ lams self' = lams self
  ∧ fluxes self' = fluxes self
  ∧ ivars self' = ivars self
  ∧ _label_vals self' = _label_vals self
  ∧ label_names_tex self' = label_names_tex self.

End DatasetWords.



(** ** Sample data *)

(** Three stars with two labels and an alias, as binary64 numbers. *)
Definition three_stars : @Table binary64 := {|
  tbl_ids := ["s0"; "s1"; "s2"];
  tbl_cols := <["teff" := [5000; 5100; 4900]%float]>
              (<["logg" := [4; 4.25; 3.5]%float]> ∅);
  tbl_aliases := <["T" := "teff"]> ∅;
|}.

Definition survey : @Dataset binary64 := {|
  data := three_stars;
  label_names := Some ["logg"];
  label_names_tex := Some None;
  lams := [[15100; 15101]; [15100; 15101]; [15100; 15101]]%float;
  fluxes := [[1; 0.5]; [0.75; 1]; [1; 1]]%float;
  ivars := [[100; 25]; [50; 100]; [0; 100]]%float;
  _label_vals := None;
|}.

(** Four reference stars with the label [logg], and the three stars above
    as the test set. *)
Definition four_stars : @Table binary64 := {|
  tbl_ids := ["r0"; "r1"; "r2"; "r3"];
  tbl_cols := <["logg" := [4; 4.125; 3.875; 4]%float]> ∅;
  tbl_aliases := ∅;
|}.

Definition reference : @Dataset binary64 := {|
  data := four_stars;
  label_names := Some ["logg"];
  label_names_tex := Some None;
  lams := [[15100]; [15100]; [15100]; [15100]]%float;
  fluxes := [[1]; [1]; [1]; [1]]%float;
  ivars := [[100]; [100]; [100]; [100]]%float;
  _label_vals := None;
|}.

(** Their label arrays. *)
Definition reference_logg : @ndarray binary64 :=
  @NdArray binary64 1 [[4]; [4.125]; [3.875]; [4]]%float.

Definition survey_logg : @ndarray binary64 :=
  @NdArray binary64 1 [[4]; [4.25]; [3.5]]%float.

Definition empty_world : World :=
  {| files := ∅; stdout := []; figures := [] |}.

(** A [corner] that draws its figure. *)
Definition corner_drawn {N : Numeric} (xs : ndarray) (labels : list string)
  : result unit := Ok tt.

(** The three stars with their SNRs, as the constructor leaves them, and
    with plotting labels set. *)
Definition three_stars_snr : @Table binary64 := {|
  tbl_ids := tbl_ids three_stars;
  tbl_cols := <["SNRs" := [100; 50; 75]%float]> (tbl_cols three_stars);
  tbl_aliases := tbl_aliases three_stars;
|}.

Definition loaded : @Dataset binary64 := {|
  data := three_stars_snr;
  label_names := Some ["logg"];
  label_names_tex := None;
  lams := lams survey;
  fluxes := fluxes survey;
  ivars := ivars survey;
  _label_vals := None;
|}.



(** A label array with one column and no row. *)
Definition no_stars : @ndarray binary64 := @NdArray binary64 1 [].

(** A class derived from [DataFrame] that reads the three stars. *)
Definition three_stars_methods : @Methods binary64 := {|
  get_spectra := λ _, Ok (lams survey, fluxes survey, ivars survey,
                          [100; 50; 75]%float);
  get_reference_labels := λ _, Ok (["a"; "b"; "c"], Some ["logg"], three_stars);
|}.

(** A table that evaluates no condition. *)
Definition no_conditions {N : Numeric} (t : Table) (cond : string)
  : result (list bool) :=
  Raise (Exn "SyntaxError" cond).

(** ** Mean and population standard deviation, as the design document
    words them *)






(** * Properties *)

(** ** The monad *)

Lemma bind_ok {S A B} (m : Py S A) (k : A → Py S B) s s' a :
  m s = (s', Ok a) → bind m k s = k a s'.
Proof. intros Hm. unfold bind. by rewrite Hm. Qed.

Lemma for_each_app {S A} (xs ys : list A) (body : A → Py S unit) s :
  for_each (xs ++ ys) body s
  = (for_each xs body ;;; for_each ys body) s.
Proof.
  revert s. induction xs as [|x xs IH]; intros s; simpl.
  - reflexivity.
  - unfold bind in *. destruct (body x s) as [s1 [[]|e]]; [|reflexivity].
    apply IH.
Qed.

(** ** Arrays *)

Section ArrayFacts.
Context {N : Numeric}.

Lemma filter_mask_shift (b : bool) (m : list bool) (l : list nat) :
  filter (λ r, (b :: m) !! r = Some true) (map S l)
  = map S (filter (λ r, m !! r = Some true) l).
Proof.
  induction l as [|r l IH]; [reflexivity|].
  simpl. rewrite !filter_cons. simpl.
  repeat case_decide; simpl; congruence.
Qed.

(** The entries kept by a mask, read by position: they are the entries
    at the rows where the mask holds, in the order of the rows. *)
Lemma compress_rows {A} (d : A) (m : list bool) (a : list A) :
  length m = length a →
  compress m a
  = map (λ r, nth r a d) (filter (λ r, m !! r = Some true) (seq 0 (length a))).
Proof.
  revert a. induction m as [|b m IH]; intros [|x a] Hlen; simpl in *;
    try discriminate; [reflexivity|].
  injection Hlen as Hlen.
  rewrite <- seq_shift, filter_cons, filter_mask_shift, (IH a Hlen).
  destruct b; simpl; by rewrite List.map_map.
Qed.



Lemma nth_seq_id {A} (d : A) (c : list A) :
  map (λ r, nth r c d) (seq 0 (length c)) = c.
Proof.
  induction c as [|x c IH]; simpl; [reflexivity|].
  f_equal. rewrite <- seq_shift, List.map_map. exact IH.
Qed.

(** Column [j] of [np.array(cols).T] is the [j]-th of [cols]. *)
Lemma column_np_array_T (cols : list (list num)) n j c :
  Forall (λ c, length c = n) cols →
  cols !! j = Some c →
  column (np_array_T cols) j = Ok c.
Proof.
  intros Hall Hj. unfold column, np_array_T. simpl.
  rewrite decide_True by (by eapply lookup_lt_Some).
  f_equal. rewrite List.map_map.
  assert (Hn : match cols with [] => 0 | c0 :: _ => length c0 end = n).
  { destruct cols as [|c0 cols]; [by rewrite lookup_nil in Hj|].
    by inversion Hall. }
  rewrite Hn.
  assert (Hc : length c = n).
  { exact (Forall_lookup_1 _ _ _ _ Hall Hj). }
  rewrite <- Hc. rewrite <- (nth_seq_id (of_Z 0) c) at 2.
  apply map_ext. intros r.
  revert j Hj. clear. induction cols as [|c0 cols IH]; intros [|j] Hj;
    simpl in *; try discriminate.
  - by injection Hj as ->.
  - by apply IH.
Qed.

End ArrayFacts.

(** ** The dataset *)

Section DatasetFacts.
Context {N : Numeric}.
Variable table_where : Table → string → result (list bool).

(** A boolean mask of the right length for the table, the fluxes and
    the inverse variances subsets all three; [lams] is not among them. *)
Lemma choose_objects_array (m : list bool) (self : Dataset) :
  length m = table_len (data self) →
  length m = length (fluxes self) →
  length m = length (ivars self) →
  choose_objects table_where (MaskArray m) self
  = (set_ivars (compress m (ivars self))
       (set_fluxes (compress m (fluxes self))
          (set_data {| tbl_ids := compress m (tbl_ids (data self));
                       tbl_cols := compress m <$> tbl_cols (data self);
                       tbl_aliases := tbl_aliases (data self) |} self)),
     Ok tt).
Proof.
  intros Ht Hf Hv.
  unfold choose_objects, bind, gets, modify, select, bool_index, table_len in *.
  simpl. rewrite decide_True by done. simpl.
  rewrite decide_True by done. rewrite decide_True by done.
  reflexivity.
Qed.

(** The loop of [choose_labels], from a list of names already chosen. *)
Lemma choose_labels_loop_ok (cols acc : list string) (self : Dataset) :
  label_names self = Some acc →
  Forall (λ k, contains (data self) (resolve_alias (data self) k) = true) cols →
  for_each cols choose_labels_step self
  = (set_label_names
       (Some (acc ++ map (resolve_alias (data self)) cols)) self, Ok tt).
Proof.
  revert acc self. induction cols as [|k cols IH]; intros acc self Hacc Hall.
  - simpl. unfold ret. rewrite app_nil_r, <- Hacc. by destruct self.
  - inversion Hall as [|? ? Hk Hrest]; subst. simpl.
    unfold bind at 1. unfold choose_labels_step at 1.
    unfold bind, gets, modify. simpl. rewrite Hk. simpl.
    rewrite (IH (acc ++ [resolve_alias (data self) k])).
    + simpl. by rewrite <- app_assoc.
    + unfold append_label. simpl. by rewrite Hacc.
    + exact Hrest.
Qed.


Lemma choose_labels_ok (cols : list string) (self : Dataset) :
  Forall (λ k, contains (data self) (resolve_alias (data self) k) = true) cols →
  choose_labels cols self
  = (set_label_names (Some (map (resolve_alias (data self)) cols)) self, Ok tt).
Proof.
  intros Hall. unfold choose_labels, bind at 1, modify.
  by rewrite (choose_labels_loop_ok cols []
                (set_label_names (Some []) self) eq_refl Hall).
Qed.


(** C10. [choose_objects] leaves [lams] as it was, for every mask and
    whether the call returns or raises: its value, hence its row count. *)
Theorem choose_objects_keeps_lams (mk : mask) (self : Dataset) :
  lams (choose_objects table_where mk self).1 = lams self
  ∧ length (lams (choose_objects table_where mk self).1) = length (lams self).
Proof.
  assert (H : lams (choose_objects table_where mk self).1 = lams self).
  { unfold choose_objects, bind, gets, modify.
    destruct (match mk with
              | MaskCond cond => table_where (data self) cond
              | MaskArray m => Ok m
              end) as [m|e]; [|reflexivity].
    destruct (select (data self) m) as [d|e]; [|reflexivity]. simpl.
    destruct (bool_index (fluxes self) m) as [f|e]; [|reflexivity]. simpl.
    destruct (bool_index (ivars self) m) as [v|e]; reflexivity. }
  by rewrite H.
Qed.

(** C9. After [set_label_vals(M)] the property [label_vals] is [M],
    whatever the table and the label names are; after
    [reset_label_vals] it is computed from the table again; and it is
    computed from the table on every dataset the constructor returns. *)
Theorem label_vals_round_trip (self : Dataset) (M : ndarray) :
  label_vals (set_label_vals M self) = Ok M
  ∧ label_vals (reset_label_vals (set_label_vals M self)) = table_labels self
  ∧ (∀ t snrs l f v names,
       rbind (init t snrs l f v names) label_vals
       = rbind (init t snrs l f v names) table_labels).
Proof.
  split; [reflexivity|]. split; [reflexivity|].
  intros t snrs l f v names. unfold init.
  destruct (add_column t "SNRs" snrs); reflexivity.
Qed.

(** C4. [label_vals] is the stored array when there is one. With none
    stored, and [label_names] naming columns of a well-formed table, it
    is an array with one column per name, and column [j] is the column
    of the table that [label_names[j]] names. *)
Theorem label_vals_columns (self : Dataset) :
  (∀ M, _label_vals self = Some M → label_vals self = Ok M)
  ∧ (∀ names,
       _label_vals self = None →
       label_names self = Some names →
       table_wf (data self) →
       Forall (λ k, contains (data self) k = true) names →
       ∃ M, label_vals self = Ok M
            ∧ ncols M = length names
            ∧ ∀ j k, names !! j = Some k →
                ∃ c, tbl_cols (data self) !! k = Some c
                     ∧ column M j = Ok c).
Proof.
  split.
  - intros M HM. unfold label_vals. by rewrite HM.
  - intros names Hnone Hnames Hwf Hall.
    unfold label_vals, table_labels. rewrite Hnone, Hnames. simpl.
    assert (Hcols : traverse (getitem (data self)) names
                    = Ok (map (λ k, default [] (tbl_cols (data self) !! k)) names)).
    { clear Hnames. induction Hall as [|k names Hk _ IH]; [reflexivity|].
      simpl. rewrite IH. unfold getitem, contains in *.
      apply bool_decide_eq_true in Hk. destruct Hk as [c Hc].
      by rewrite Hc. }
    rewrite Hcols. simpl. eexists. split; [reflexivity|].
    split; [simpl; by rewrite length_map|].
    intros j k Hj.
    assert (Hk : is_Some (tbl_cols (data self) !! k)).
    { rewrite Forall_forall in Hall.
      apply (bool_decide_eq_true_1 _), Hall.
      by eapply list_elem_of_lookup_2. }
    destruct Hk as [c Hc]. exists c. split; [exact Hc|].
    apply (column_np_array_T _ (table_len (data self))).
    + apply Forall_forall. intros c' Hc'.
      apply list_elem_of_fmap in Hc' as (k' & -> & Hk').
      rewrite Forall_forall in Hall. specialize (Hall k' Hk').
      apply bool_decide_eq_true in Hall. destruct Hall as [c'' Hc''].
      rewrite Hc''. simpl. exact (Hwf k' c'' Hc'').
    + rewrite list_lookup_fmap, Hj. simpl. by rewrite Hc.
Qed.

End DatasetFacts.

(** *** The dataset on the sample data *)

(** C1 on three stars and the mask [True, False, True]: the call returns,
    the table, the fluxes and the inverse variances keep rows 0 and 2, and
    [lams] still has its three rows. *)
Theorem choose_objects_misses_lams :
  ∃ self',
    choose_objects no_conditions (MaskArray [true; false; true]) survey
    = (self', Ok tt)
    ∧ tbl_ids (data self') = ["s0"; "s2"]
    ∧ table_len (data self') = 2
    ∧ fluxes self' = [[1; 0.5]; [1; 1]]%float
    ∧ ivars self' = [[100; 25]; [0; 100]]%float
    ∧ length (lams self') = 3.
Proof. eexists. split; [vm_compute; reflexivity|]. vm_compute. repeat split. Qed.



Lemma three_stars_wf : table_wf three_stars.
Proof.
  unfold table_wf, three_stars. simpl.
  apply map_Forall_insert_2; [reflexivity|].
  apply map_Forall_insert_2; [reflexivity|].
  apply map_Forall_empty.
Qed.

Lemma label_vals_columns_witness :
  ∃ M, label_vals (set_label_names (Some ["logg"; "teff"]) survey) = Ok M
       ∧ ncols M = 2
       ∧ ∀ j k, ["logg"; "teff"] !! j = Some k →
           ∃ c, tbl_cols three_stars !! k = Some c ∧ column M j = Ok c.
Proof.
  apply (proj2 (label_vals_columns
                  (set_label_names (Some ["logg"; "teff"]) survey))
           ["logg"; "teff"] eq_refl eq_refl three_stars_wf).
  repeat constructor.
Defined.

(** ** Strings and file names *)

Lemma append_cons (x : Ascii.ascii) (a b : string) :
  String x a +:+ b = String x (a +:+ b).
Proof. reflexivity. Qed.

Lemma append_assoc (a b c : string) : (a +:+ b) +:+ c = a +:+ b +:+ c.
Proof.
  induction a as [|x a IH]; [reflexivity|].
  by rewrite !append_cons, IH.
Qed.

Lemma append_nil_r (a : string) : a +:+ "" = a.
Proof.
  induction a as [|x a IH]; [reflexivity|].
  by rewrite append_cons, IH.
Qed.

Lemma length_append (a b : string) :
  String.length (a +:+ b) = String.length a + String.length b.
Proof.
  induction a as [|x a IH]; [reflexivity|].
  rewrite append_cons. simpl. by rewrite IH.
Qed.

Lemma append_inj_l (a b s : string) : a +:+ s = b +:+ s → a = b.
Proof.
  revert b. induction a as [|x a IH]; intros [|y b] H.
  - reflexivity.
  - apply (f_equal String.length) in H.
    rewrite !length_append in H. simpl in H. lia.
  - apply (f_equal String.length) in H.
    rewrite !length_append in H. simpl in H. lia.
  - rewrite !append_cons in H. injection H as -> H. f_equal. by apply IH.
Qed.

(** Different labels have different files. *)
Lemma flagged_filename_inj (i j : nat) :
  flagged_filename i = flagged_filename j → i = j.
Proof.
  unfold flagged_filename. intros H.
  apply (String.app_inj "flagged_stars_") in H.
  apply append_inj_l in H. by apply (inj pretty).
Qed.

(** ** What the diagnostics write *)

Section DiagnosticsFacts.
Context {N : Numeric}.

(** Writing the identifiers one by one appends their lines to the file. *)
Lemma write_lines (filename content : string) (ids : list string) (w : World) :
  files w !! filename = Some content →
  for_each ids (λ star, modify (write filename (star +:+ newline))) w
  = ({| files := <[filename := content +:+ lines ids]> (files w);
        stdout := stdout w; figures := figures w |}, Ok tt).
Proof.
  revert content w. induction ids as [|star ids IH]; intros content w Hf.
  - simpl. unfold ret. rewrite append_nil_r, insert_id by done.
    by destruct w.
  - simpl. unfold bind at 1, modify at 1.
    rewrite (IH (content +:+ star +:+ newline)).
    + unfold write. simpl. f_equal. f_equal.
      rewrite !append_assoc.
      apply map_eq. intros f. destruct (decide (filename = f)) as [->|Hne].
      * by rewrite !lookup_insert_eq.
      * by rewrite !lookup_insert_ne, lookup_alter_ne.
    + unfold write. simpl. by rewrite lookup_alter_eq, Hf.
Qed.

(** One turn of the first loop, when the label has a name and a column
    and the mask has one entry per identifier. *)
Lemma flag_label_run (label_names : list string) (test_labels : ndarray)
    (test_IDs : list string) (lower upper : list num) (i : nat)
    (name : string) (warning : list bool) (w : World) :
  label_names !! i = Some name →
  label_warning test_labels lower upper i = Ok warning →
  length warning = length test_IDs →
  flag_label label_names test_labels test_IDs lower upper i w
  = ({| files := <[flagged_filename i := lines (compress warning test_IDs)]>
                   (files w);
        stdout := stdout w ++ flag_report name i (py_sum warning);
        figures := figures w |}, Ok tt).
Proof.
  intros Hname Hwarn Hlen. unfold flag_label, item. rewrite Hname, Hwarn.
  unfold bind at 1, lift at 1. unfold bind at 1, lift at 1.
  unfold bind at 1, modify at 1.
  unfold bind at 1, lift at 1, bool_index.
  rewrite decide_True by done.
  unfold bind at 1.
  rewrite (write_lines _ "") by (simpl; by rewrite lookup_insert_eq).
  unfold bind, print, modify. simpl.
  rewrite insert_insert_eq, <- !app_assoc. reflexivity.
Qed.

(** *** The bounds and the mask of one label *)

Lemma column_ok (a : ndarray) (i : nat) :
  i < ncols a →
  column a i = Ok (map (λ row, nth i row (of_Z 0)) (rows a)).
Proof. intros Hi. unfold column. by rewrite decide_True. Qed.

Lemma columns_lookup (a : ndarray) (i : nat) (c : list num) :
  column a i = Ok c → columns a !! i = Some c.
Proof.
  unfold column, columns. case_decide as Hi; [|done]. intros [= <-].
  by rewrite list_lookup_fmap, lookup_seq_lt.
Qed.

Lemma lower_bounds_lookup (reference_labels : ndarray) (i : nat) (c : list num) :
  column reference_labels i = Ok c →
  lower_bounds reference_labels !! i
  = Some (nsub (np_mean c) (nmul (of_Z 2) (np_std c))).
Proof.
  intros Hc%columns_lookup. unfold lower_bounds, np_mean0, np_std0.
  by rewrite lookup_zip_with, !list_lookup_fmap, Hc.
Qed.

Lemma upper_bounds_lookup (reference_labels : ndarray) (i : nat) (c : list num) :
  column reference_labels i = Ok c →
  upper_bounds reference_labels !! i
  = Some (nadd (np_mean c) (nmul (of_Z 2) (np_std c))).
Proof.
  intros Hc%columns_lookup. unfold upper_bounds, np_mean0, np_std0.
  by rewrite lookup_zip_with, !list_lookup_fmap, Hc.
Qed.

(** The mask of label [i] is the test column against
    [mean - 2 * std] and [mean + 2 * std] of the reference column. *)
Lemma label_warning_columns (reference_labels test_labels : ndarray)
    (i : nat) (rc tc : list num) :
  column reference_labels i = Ok rc →
  column test_labels i = Ok tc →
  label_warning test_labels (lower_bounds reference_labels)
    (upper_bounds reference_labels) i
  = Ok (warning_mask tc
          (nsub (np_mean rc) (nmul (of_Z 2) (np_std rc)))
          (nadd (np_mean rc) (nmul (of_Z 2) (np_std rc)))).
Proof.
  intros Hrc Htc. unfold label_warning, item.
  by rewrite Htc, (lower_bounds_lookup _ _ _ Hrc),
    (upper_bounds_lookup _ _ _ Hrc).
Qed.

Lemma warning_mask_length (tc : list num) (lo up : num) :
  length (warning_mask tc lo up) = length tc.
Proof. unfold warning_mask. by rewrite length_map. Qed.


Lemma label_warning_ok (reference_labels test_labels : ndarray) (i : nat) :
  i < ncols reference_labels →
  i < ncols test_labels →
  ∃ warning,
    label_warning test_labels (lower_bounds reference_labels)
      (upper_bounds reference_labels) i = Ok warning
    ∧ length warning = nrows test_labels.
Proof.
  intros Hr Ht. eexists. split.
  - apply label_warning_columns; by apply column_ok.
  - rewrite warning_mask_length. by rewrite length_map.
Qed.

(** *** The first loop *)

Lemma flag_loop_run (label_names : list string) (test_labels : ndarray)
    (test_IDs : list string) (lower upper : list num) (n a : nat) (w : World) :
  (∀ i, a ≤ i < a + n →
     ∃ name warning,
       label_names !! i = Some name
       ∧ label_warning test_labels lower upper i = Ok warning
       ∧ length warning = length test_IDs) →
  ∃ w',
    for_each (seq a n)
      (flag_label label_names test_labels test_IDs lower upper) w
    = (w', Ok tt)
    ∧ figures w' = figures w
    ∧ (∃ rest, stdout w' = stdout w ++ rest ∧ length rest = 3 * n)
    ∧ (∀ f, (∀ i, a ≤ i < a + n → f ≠ flagged_filename i) →
         files w' !! f = files w !! f)
    ∧ (∀ i name warning,
         a ≤ i < a + n →
         label_names !! i = Some name →
         label_warning test_labels lower upper i = Ok warning →
         files w' !! flagged_filename i
         = Some (lines (compress warning test_IDs))
         ∧ ∃ before after,
             length before = 3 * (i - a)
             ∧ stdout w' = stdout w ++ before
                           ++ flag_report name i (py_sum warning) ++ after).
Proof.
  revert a w. induction n as [|n IH]; intros a w Hall.
  - exists w. simpl. repeat split; try done.
    + exists []. by rewrite app_nil_r.
    + intros; lia.
    + lia.
  - destruct (Hall a ltac:(lia)) as (name & warning & Hname & Hwarn & Hlen).
    pose proof (flag_label_run _ _ _ _ _ _ _ _ w Hname Hwarn Hlen) as Hrun.
    set (w1 := {| files := <[flagged_filename a
                             := lines (compress warning test_IDs)]> (files w);
                  stdout := stdout w ++ flag_report name a (py_sum warning);
                  figures := figures w |}) in *.
    destruct (IH (S a) w1) as (w' & Hloop & Hfig & (rest & Hout & Hrest)
                                & Hframe & Hfiles).
    { intros i Hi. apply Hall. lia. }
    exists w'. simpl. rewrite (bind_ok _ _ _ _ _ Hrun).
    split; [exact Hloop|]. split; [by rewrite Hfig|].
    split; [|split].
    + exists (flag_report name a (py_sum warning) ++ rest).
      rewrite Hout. simpl. rewrite <- app_assoc. split; [done|].
      simpl. lia.
    + intros f Hf. rewrite Hframe by (intros i Hi; apply Hf; lia).
      simpl. apply lookup_insert_ne. intros Heq. by apply (Hf a ltac:(lia)).
    + intros i name' warning' Hi Hname' Hwarn'.
      destruct (decide (i = a)) as [->|Hne].
      * assert (name' = name) as -> by congruence.
        assert (warning' = warning) as -> by congruence.
        split.
        -- rewrite Hframe.
           ++ simpl. by rewrite lookup_insert_eq.
           ++ intros j Hj Heq%flagged_filename_inj. lia.
        -- exists [], rest. split; [simpl; lia|].
           rewrite Hout. simpl. by rewrite <- app_assoc.
      * destruct (Hfiles i name' warning' ltac:(lia) Hname' Hwarn')
          as (Hfile & before & after & Hbefore & Hstd).
        split; [exact Hfile|].
        exists (flag_report name a (py_sum warning) ++ before), after.
        split.
        -- simpl. lia.
        -- rewrite Hstd. simpl. by rewrite <- !app_assoc.
Qed.

(** *** The plots leave the text files alone *)

Lemma extends_refl (w : World) : extends w w.
Proof. split; [done|]. exists []. by rewrite app_nil_r. Qed.

Lemma extends_trans (w1 w2 w3 : World) :
  extends w1 w2 → extends w2 w3 → extends w1 w3.
Proof.
  intros [Hf1 [r1 Ho1]] [Hf2 [r2 Ho2]]. split; [congruence|].
  exists (r1 ++ r2). by rewrite Ho2, Ho1, <- app_assoc.
Qed.

Lemma quiet_ret {A} (a : A) : quiet (ret a).
Proof. intros w. apply extends_refl. Qed.

Lemma quiet_lift {A} (r : result A) : quiet (lift r).
Proof. intros w. apply extends_refl. Qed.

Lemma quiet_print (s : string) : quiet (print s).
Proof. intros w. split; [done|]. by exists [s]. Qed.

Lemma quiet_savefig (figname : string) : quiet (savefig figname).
Proof. intros w. split; [done|]. exists []. simpl. by rewrite app_nil_r. Qed.

Lemma quiet_bind {A B} (m : Py World A) (k : A → Py World B) :
  quiet m → (∀ a, quiet (k a)) → quiet (bind m k).
Proof.
  intros Hm Hk w. unfold bind. specialize (Hm w).
  destruct (m w) as [w1 [a|e]]; [|exact Hm].
  eapply extends_trans; [exact Hm|]. apply Hk.
Qed.

Lemma quiet_for_each {A} (xs : list A) (body : A → Py World unit) :
  (∀ x, quiet (body x)) → quiet (for_each xs body).
Proof.
  intros Hbody. induction xs as [|x xs IH]; simpl.
  - apply quiet_ret.
  - apply quiet_bind; [apply Hbody | intros _; exact IH].
Qed.

End DiagnosticsFacts.

Create HintDb quiet.
#[export] Hint Resolve quiet_ret quiet_lift quiet_print quiet_savefig : quiet.
#[export] Hint Extern 2 (quiet (bind _ _)) =>
  apply quiet_bind; [|intros ?] : quiet.
#[export] Hint Extern 2 (quiet (for_each _ _)) =>
  apply quiet_for_each; intros ? : quiet.
#[export] Hint Extern 3 (quiet (match ?x with _ => _ end)) =>
  destruct x : quiet.

Section PlotFacts.
Context {N : Numeric}.
Variable corner : ndarray → list string → result unit.

Lemma label_triangle_plot_quiet (self : Dataset) (figname : option string) :
  quiet (label_triangle_plot corner self figname).
Proof. unfold label_triangle_plot. auto 20 with quiet. Qed.

Lemma one_to_one_plot_quiet (reference_set : Dataset)
    (reference_labels test_labels : ndarray) (i : nat) :
  quiet (one_to_one_plot reference_set reference_labels test_labels i).
Proof. unfold one_to_one_plot. auto 30 with quiet. Qed.

Lemma bind_lift_ok {S A B} (a : A) (k : A → Py S B) (s : S) :
  bind (lift (Ok a)) k s = k a s.
Proof. reflexivity. Qed.

(** The whole run, when the first loop has what it needs: the reference
    set has label names, both label arrays have a column for each name,
    and the test array has a row for each identifier. Every label gets
    its file and its three lines, whatever the plots do afterwards, and
    no other text file changes. *)
Lemma postdiagnostics_flags (reference_set test_set : Dataset)
    (triangle_plot_name : string) (w : World)
    (names : list string) (reference_labels test_labels : ndarray) :
  label_names reference_set = Some names →
  label_vals reference_set = Ok reference_labels →
  label_vals test_set = Ok test_labels →
  length names ≤ ncols reference_labels →
  length names ≤ ncols test_labels →
  nrows test_labels = length (IDs test_set) →
  let w' := (dataset_postdiagnostics corner reference_set test_set
               triangle_plot_name w).1 in
  (∀ f, (∀ i, i < length names → f ≠ flagged_filename i) →
     files w' !! f = files w !! f)
  ∧ ∀ i name, names !! i = Some name →
      ∃ warning,
        label_warning test_labels (lower_bounds reference_labels)
          (upper_bounds reference_labels) i = Ok warning
        ∧ length warning = length (IDs test_set)
        ∧ files w' !! flagged_filename i
          = Some (lines (compress warning (IDs test_set)))
        ∧ ∃ before after,
            length before = 3 * i
            ∧ stdout w' = stdout w ++ before
                          ++ flag_report name i (py_sum warning) ++ after.
Proof.
  intros Hnames Href Htest Hcr Hct Hrows w'.
  destruct (flag_loop_run names test_labels (IDs test_set)
              (lower_bounds reference_labels) (upper_bounds reference_labels)
              (length names) 0 w)
    as (w1 & Hloop & _ & _ & Hframe & Hfiles).
  { intros i [_ Hi]. simpl in Hi.
    destruct (lookup_lt_is_Some_2 names i Hi) as [name Hname].
    destruct (label_warning_ok reference_labels test_labels i)
      as (warning & Hwarn & Hlen); [lia..|].
    exists name, warning. by rewrite Hlen. }
  assert (Hext : extends w1 w').
  { subst w'. unfold dataset_postdiagnostics.
    rewrite Hnames, Href, Htest. simpl py_len.
    rewrite !bind_lift_ok. simpl default.
    rewrite (bind_ok _ _ _ _ _ Hloop).
    apply quiet_bind.
    - apply label_triangle_plot_quiet.
    - intros _. apply quiet_for_each. intros i.
      apply one_to_one_plot_quiet. }
  destruct Hext as [Hf [rest Hout]]. split.
  - intros f Hne. rewrite Hf. apply Hframe. intros i Hi. apply Hne. lia.
  - intros i name Hname.
    assert (Hi : i < length names) by (by eapply lookup_lt_Some).
    destruct (label_warning_ok reference_labels test_labels i)
      as (warning & Hwarn & Hlen); [lia..|].
    exists warning. split; [exact Hwarn|]. split; [by rewrite Hlen|].
    destruct (Hfiles i name warning ltac:(lia) Hname Hwarn)
      as (Hfile & before & after & Hbefore & Hstd).
    split; [by rewrite Hf|].
    exists before, (after ++ rest). split; [lia|].
    rewrite Hout, Hstd. by rewrite <- !app_assoc.
Qed.


(** C8. The file of label [i] is named by the position [i] of the label,
    [flagged_stars_<i>.txt]; the lines printed for it give the name of the
    label, and that file name. The run changes no text file under any
    other name. *)
Theorem flagged_file_named_by_index (reference_set test_set : Dataset)
    (triangle_plot_name : string) (w : World)
    (names : list string) (reference_labels test_labels : ndarray)
    (i : nat) (name : string) :
  label_names reference_set = Some names →
  label_vals reference_set = Ok reference_labels →
  label_vals test_set = Ok test_labels →
  length names ≤ ncols reference_labels →
  length names ≤ ncols test_labels →
  nrows test_labels = length (IDs test_set) →
  names !! i = Some name →
  let w' := (dataset_postdiagnostics corner reference_set test_set
               triangle_plot_name w).1 in
  is_Some (files w' !! ("flagged_stars_" +:+ pretty i +:+ ".txt"))
  ∧ "Reference label " +:+ name ∈ stdout w'
  ∧ "Saved list " +:+ "flagged_stars_" +:+ pretty i +:+ ".txt" ∈ stdout w'
  ∧ ∀ f, files w' !! f ≠ files w !! f →
      ∃ j, j < length names ∧ f = "flagged_stars_" +:+ pretty j +:+ ".txt".
Proof.
  intros Hnames Href Htest Hcr Hct Hrows Hname w'.
  destruct (postdiagnostics_flags reference_set test_set triangle_plot_name w
              names reference_labels test_labels Hnames Href Htest Hcr Hct Hrows)
    as [Hframe Hlabels].
  destruct (Hlabels i name Hname)
    as (warning & Hwarn & Hlen & Hfile & before & after & Hbefore & Hstd).
  subst w'. unfold flagged_filename in Hfile.
  split; [by rewrite Hfile|].
  split; [|split].
  - rewrite Hstd. unfold flag_report.
    rewrite !elem_of_app, !elem_of_cons. tauto.
  - rewrite Hstd. unfold flag_report, flagged_filename.
    rewrite !elem_of_app, !elem_of_cons. tauto.
  - intros f Hf.
    destruct (decide (Exists (λ j, f = flagged_filename j)
                        (seq 0 (length names)))) as [Hex|Hno].
    + apply Exists_exists in Hex as (j & Hj & ->).
      apply elem_of_seq in Hj. exists j. split; [lia|done].
    + exfalso. apply Hf, Hframe. intros j Hj ->. apply Hno.
      apply Exists_exists. exists j. split; [|done].
      apply elem_of_seq. lia.
Qed.

End PlotFacts.

(** ** The two-sigma rule, in exact arithmetic *)

Section ExactFacts.











End ExactFacts.

(** ** The 1-1 plots *)

Section ComparisonFacts.
Context {N : Numeric}.


End ComparisonFacts.

(** ** The diagnostics on the sample data *)

(** The run on the sample data: the reference mean of [logg] is 4 and
    the bounds are near 3.82 and 4.18, so the test stars [s1] (4.25) and
    [s2] (3.5) are flagged. The reference set has four stars and the test
    set three, and the first 1-1 plot raises. *)
Example postdiagnostics_sample :
  ∃ w',
    dataset_postdiagnostics corner_drawn reference survey "tri.png"
      empty_world
    = (w', Raise (Exn "ValueError" "x and y must be the same size"))
    ∧ files w' !! "flagged_stars_0.txt"
      = Some ("s1" +:+ newline +:+ "s2" +:+ newline)
    ∧ stdout w' = [ "Reference label logg";
                    "flagged 2 stars beyond 2-sig of reference labels";
                    "Saved list flagged_stars_0.txt";
                    "Plotting every label against every other";
                    "Saved fig tri.png" ]
    ∧ figures w' = ["tri.png"].
Proof. eexists. split; [vm_compute; reflexivity|]. vm_compute. repeat split. Qed.




Lemma flagged_file_named_by_index_witness :
  label_vals reference = Ok reference_logg
  ∧ label_vals survey = Ok survey_logg
  ∧ is_Some (files (dataset_postdiagnostics corner_drawn reference survey
                      "tri.png" empty_world).1
             !! ("flagged_stars_" +:+ pretty 0 +:+ ".txt"))
  ∧ "Reference label " +:+ "logg"
    ∈ stdout (dataset_postdiagnostics corner_drawn reference survey
                "tri.png" empty_world).1
  ∧ "Saved list " +:+ "flagged_stars_" +:+ pretty 0 +:+ ".txt"
    ∈ stdout (dataset_postdiagnostics corner_drawn reference survey
                "tri.png" empty_world).1
  ∧ ∀ f,
      files (dataset_postdiagnostics corner_drawn reference survey
               "tri.png" empty_world).1 !! f ≠ files empty_world !! f →
      ∃ j, j < length ["logg"]
           ∧ f = "flagged_stars_" +:+ pretty j +:+ ".txt".
Proof.
  split; [reflexivity|]. split; [reflexivity|].
  apply (flagged_file_named_by_index corner_drawn reference survey "tri.png"
           empty_world ["logg"] reference_logg survey_logg 0 "logg");
    try reflexivity; simpl; lia.
Defined.

(** *** The two-sigma rule on a constant reference column *)




(** * Further properties *)

(** ** Selecting labels and stars *)

Section SelectionFacts.
Context {N : Numeric}.
Variable table_where : Table → string → result (list bool).

(** When every requested name resolves, [choose_labels] returns and
    [label_names] is the list of the resolved names, in the order of the
    request, each of them a column of the table; what [label_names] held
    before is gone. *)
Theorem choose_labels_all_resolved (cols : list string) (self : Dataset) :
  Forall (resolves self) cols →
  choose_labels cols self
  = (set_label_names (Some (map (resolve_alias (data self)) cols)) self, Ok tt)
  ∧ Forall (λ key, is_Some (tbl_cols (data self) !! key))
      (map (resolve_alias (data self)) cols).
Proof.
  intros Hall. split.
  - unfold choose_labels, bind at 1, modify.
    by rewrite (choose_labels_loop_ok cols []
                  (set_label_names (Some []) self) eq_refl Hall).
  - apply Forall_fmap. eapply Forall_impl; [exact Hall|].
    intros k Hk. by apply (bool_decide_eq_true_1 _).
Qed.

Lemma choose_labels_loop_frame (cols : list string) (self : Dataset) :
  same_but_names self (for_each cols choose_labels_step self).1.
Proof.
  revert self. induction cols as [|k cols IH]; intros self.
  - by repeat split.
  - simpl. unfold bind at 1. unfold choose_labels_step at 1.
    unfold bind, gets, throw, modify. simpl.
    destruct (contains (data self) (resolve_alias (data self) k)); simpl.
    + specialize (IH (append_label (resolve_alias (data self) k) self)).
      destruct (for_each cols choose_labels_step
                  (append_label (resolve_alias (data self) k) self))
        as [s' [[]|e]]; exact IH.
    + by repeat split.
Qed.

(** [choose_labels] touches nothing but [label_names], whether it returns
    or raises: the table, the three spectral arrays, the stored label
    array and the plotting labels are as before. *)
Theorem choose_labels_frame (cols : list string) (self : Dataset) :
  same_but_names self (choose_labels cols self).1.
Proof.
  unfold choose_labels, bind at 1, modify.
  pose proof (choose_labels_loop_frame cols (set_label_names (Some []) self))
    as H.
  destruct (for_each cols choose_labels_step (set_label_names (Some []) self))
    as [s' [[]|e]]; exact H.
Qed.

(** The array that [label_vals] builds from the table. *)
Lemma table_labels_columns (self : Dataset) (names : list string) :
  label_names self = Some names →
  table_wf (data self) →
  Forall (λ k, is_Some (tbl_cols (data self) !! k)) names →
  ∃ M, table_labels self = Ok M
       ∧ ncols M = length names
       ∧ Forall (λ row, length row = length names) (rows M)
       ∧ (names ≠ [] → nrows M = table_len (data self))
       ∧ ∀ j k, names !! j = Some k →
           ∃ c, tbl_cols (data self) !! k = Some c ∧ column M j = Ok c.
Proof.
  intros Hnames Hwf Hall. unfold table_labels. rewrite Hnames. simpl.
  set (cols := map (λ k, default [] (tbl_cols (data self) !! k)) names).
  assert (Hcols : traverse (getitem (data self)) names = Ok cols).
  { subst cols. clear Hnames. induction Hall as [|k names [c Hc] _ IH];
      [reflexivity|].
    simpl. rewrite IH. unfold getitem. by rewrite Hc. }
  assert (Hlens : Forall (λ c, length c = table_len (data self)) cols).
  { subst cols. apply Forall_fmap. eapply Forall_impl; [exact Hall|].
    intros k [c Hc]. simpl. rewrite Hc. simpl. exact (Hwf k c Hc). }
  rewrite Hcols. simpl. eexists. split; [reflexivity|].
  split; [simpl; subst cols; by rewrite length_map|].
  split; [|split].
  - simpl. apply Forall_fmap, Forall_forall. intros r _. simpl.
    subst cols. by rewrite !length_map.
  - intros Hne. unfold nrows. simpl. rewrite length_map, length_seq.
    destruct names as [|k names]; [done|].
    subst cols. simpl in *. by inversion Hlens.
  - intros j k Hj.
    destruct (Forall_lookup_1 _ _ _ _ Hall Hj) as [c Hc].
    exists c. split; [exact Hc|].
    apply (column_np_array_T _ (table_len (data self))); [exact Hlens|].
    subst cols. rewrite list_lookup_fmap, Hj. simpl. by rewrite Hc.
Qed.

(** After a [choose_labels] that returns, on a dataset with no stored
    label array, [label_vals] is an array with one column per requested
    name and one row per star, and column [j] is the table column that the
    [j]-th requested name resolves to. *)
Theorem choose_labels_then_label_vals (cols : list string) (self : Dataset) :
  _label_vals self = None →
  table_wf (data self) →
  Forall (resolves self) cols →
  ∃ M, label_vals (choose_labels cols self).1 = Ok M
       ∧ ncols M = length cols
       ∧ (cols ≠ [] → nrows M = table_len (data self))
       ∧ ∀ j k, cols !! j = Some k →
           ∃ c, tbl_cols (data self) !! resolve_alias (data self) k = Some c
                ∧ column M j = Ok c.
Proof.
  intros Hnone Hwf Hall.
  unfold choose_labels, bind at 1, modify.
  rewrite (choose_labels_loop_ok cols [] (set_label_names (Some []) self)
             eq_refl Hall).
  simpl. unfold label_vals. simpl. rewrite Hnone.
  destruct (table_labels_columns
              (set_label_names
                 (Some (map (resolve_alias (data self)) cols)) self)
              (map (resolve_alias (data self)) cols) eq_refl Hwf)
    as (M & HM & Hncols & _ & Hnrows & Hcolumns).
  { apply Forall_fmap. eapply Forall_impl; [exact Hall|].
    intros k Hk. by apply (bool_decide_eq_true_1 _). }
  exists M. split; [exact HM|].
  split; [by rewrite Hncols, length_map|]. split.
  - intros Hne. apply Hnrows. by destruct cols.
  - intros j k Hj. apply Hcolumns.
    by rewrite list_lookup_fmap, Hj.
Qed.

Lemma choose_objects_keeps_stored (mk : mask) (self : Dataset) :
  _label_vals (choose_objects table_where mk self).1 = _label_vals self
  ∧ label_names (choose_objects table_where mk self).1 = label_names self.
Proof.
  unfold choose_objects, bind, gets, modify.
  destruct (match mk with
            | MaskCond cond => table_where (data self) cond
            | MaskArray m => Ok m
            end) as [m|e]; [|done].
  destruct (select (data self) m) as [d|e]; [|done]. simpl.
  destruct (bool_index (fluxes self) m) as [f|e]; [|done]. simpl.
  destruct (bool_index (ivars self) m) as [v|e]; done.
Qed.

(** A label array stored by [set_label_vals] is what [label_vals] keeps
    returning after [choose_objects] and after [choose_labels]: neither
    drops rows or columns from it, nor forgets it. *)
Theorem stored_labels_survive_selection (M : ndarray) (mk : mask)
    (cols : list string) (self : Dataset) :
  label_vals (choose_objects table_where mk (set_label_vals M self)).1 = Ok M
  ∧ label_vals (choose_labels cols (set_label_vals M self)).1 = Ok M.
Proof.
  split.
  - unfold label_vals.
    by rewrite (proj1 (choose_objects_keeps_stored mk (set_label_vals M self))).
  - unfold label_vals.
    destruct (choose_labels_frame cols (set_label_vals M self))
      as (_ & _ & _ & _ & Hstored & _).
    by rewrite Hstored.
Qed.

Lemma compress_length {A} (m : list bool) (a : list A) :
  length m = length a →
  length (compress m a)
  = length (filter (λ r, m !! r = Some true) (seq 0 (length m))).
Proof.
  intros Hlen. destruct a as [|x a].
  - destruct m; [reflexivity|discriminate].
  - by rewrite (compress_rows x m _ Hlen), length_map, Hlen.
Qed.

(** A boolean mask with one entry per star, on a dataset whose table,
    fluxes and inverse variances have one row per star: [choose_objects]
    returns, and the identifiers, every column of the table, the fluxes
    and the inverse variances are then the rows where the mask holds, in
    their order, as many in each. The table is still well formed. *)
Theorem choose_objects_rows (m : list bool) (self : Dataset) :
  table_wf (data self) →
  length m = table_len (data self) →
  length m = length (fluxes self) →
  length m = length (ivars self) →
  let kept := filter (λ r, m !! r = Some true) (seq 0 (length m)) in
  ∃ self',
    choose_objects table_where (MaskArray m) self = (self', Ok tt)
    ∧ IDs self' = map (λ r, nth r (IDs self) "") kept
    ∧ fluxes self' = map (λ r, nth r (fluxes self) []) kept
    ∧ ivars self' = map (λ r, nth r (ivars self) []) kept
    ∧ (∀ k c, tbl_cols (data self) !! k = Some c →
         tbl_cols (data self') !! k
         = Some (map (λ r, nth r c (of_Z 0)) kept))
    ∧ table_wf (data self')
    ∧ table_len (data self') = length kept.
Proof.
  intros Hwf Ht Hf Hv kept.
  eexists. split; [by apply choose_objects_array|]. simpl.
  unfold IDs, table_len in *. simpl. subst kept.
  rewrite Ht at 1. rewrite (compress_rows "" m _ Ht).
  rewrite Hf at 1. rewrite (compress_rows [] m _ Hf).
  rewrite Hv at 1. rewrite (compress_rows [] m _ Hv).
  split; [by rewrite <- Ht|]. split; [by rewrite <- Hf|].
  split; [by rewrite <- Hv|].
  assert (Hcol : ∀ k c, tbl_cols (data self) !! k = Some c →
            compress m c
            = map (λ r, nth r c (of_Z 0))
                (filter (λ r, m !! r = Some true) (seq 0 (length m)))).
  { intros k c Hc. pose proof (Hwf k c Hc) as Hlen. unfold table_len in Hlen.
    rewrite (compress_rows (of_Z 0) m c) by congruence.
    by rewrite Hlen, <- Ht. }
  split; [|split].
  - intros k c Hc. by rewrite lookup_fmap, Hc, <- (Hcol k c Hc).
  - intros k c'. simpl. rewrite lookup_fmap.
    destruct (tbl_cols (data self) !! k) as [c|] eqn:Hc; [|done].
    intros [= <-]. unfold table_len. simpl.
    rewrite (Hcol k c Hc), !length_map. by rewrite <- Ht.
  - by rewrite length_map, <- Ht.
Qed.

Lemma compress_all {A} (a : list A) :
  compress (repeat true (length a)) a = a.
Proof. induction a as [|x a IH]; simpl; [reflexivity|]. by rewrite IH. Qed.

(** A mask that holds everywhere changes nothing. *)
Theorem choose_objects_all_true (self : Dataset) :
  table_wf (data self) →
  length (fluxes self) = table_len (data self) →
  length (ivars self) = table_len (data self) →
  choose_objects table_where
    (MaskArray (repeat true (table_len (data self)))) self
  = (self, Ok tt).
Proof.
  intros Hwf Hf Hv.
  rewrite choose_objects_array by (by rewrite repeat_length).
  f_equal. destruct self as [[ids cols al] names tex la fl iv stored].
  unfold table_wf, table_len in *. simpl in *.
  unfold set_ivars, set_fluxes, set_data. simpl.
  assert (Hfl : compress (repeat true (length ids)) fl = fl)
    by (rewrite <- Hf; apply compress_all).
  assert (Hiv : compress (repeat true (length ids)) iv = iv)
    by (rewrite <- Hv; apply compress_all).
  assert (Hcols : compress (repeat true (length ids)) <$> cols = cols).
  { apply map_eq. intros k. rewrite lookup_fmap.
    destruct (cols !! k) as [c|] eqn:Hc; [|done]. simpl.
    by rewrite <- (Hwf k c Hc), compress_all. }
  by rewrite Hfl, Hiv, Hcols, compress_all.
Qed.

(** When evaluating the condition of the mask on the table raises, or
    the table refuses to select the rows of the mask - as it does for a
    boolean mask that has not one entry per row - [choose_objects] raises
    the same and the dataset stays as it was. *)
Theorem choose_objects_refused (mk : mask) (self : Dataset) (e : exn) :
  rbind (match mk with
         | MaskCond cond => table_where (data self) cond
         | MaskArray m => Ok m
         end) (select (data self)) = Raise e →
  choose_objects table_where mk self = (self, Raise e).
Proof.
  intros Href. unfold choose_objects, bind, gets.
  destruct (match mk with
            | MaskCond cond => table_where (data self) cond
            | MaskArray m => Ok m
            end) as [m|e']; simpl in Href.
  - by rewrite Href.
  - by injection Href as ->.
Qed.




(** [get_plotting_labels] gives the names set by [set_label_names_tex],
    gives [label_names] when [None] was set, and raises an
    [AttributeError] on every dataset the constructor returns: the
    constructor does not keep its [label_names_tex]. *)
Theorem plotting_labels (self : Dataset) (tex : list string) :
  get_plotting_labels (set_label_names_tex (Some tex) self) = Ok (Some tex)
  ∧ get_plotting_labels (set_label_names_tex None self) = Ok (label_names self)
  ∧ ∀ t snrs l f v names,
      rbind (init t snrs l f v names) get_plotting_labels
      = rbind (init t snrs l f v names)
          (λ _, Raise (Exn "AttributeError"
                  "'Dataset' object has no attribute 'label_names_tex'")).
Proof.
  split; [reflexivity|]. split; [reflexivity|].
  intros t snrs l f v names. unfold init.
  destruct (add_column t "SNRs" snrs); reflexivity.
Qed.

(** What the constructor returns holds what it was given: the [SNRs]
    property is the array of SNRs, the identifiers and the other columns
    of the table are those of the table, the arrays and the label names
    are the arguments, and a well-formed table stays well formed. *)
Theorem init_round_trip (t : Table) (snrs : list num)
    (l f v : list (list num)) (names : option (list string)) (d : Dataset) :
  init t snrs l f v names = Ok d →
  SNRs d = Ok snrs
  ∧ IDs d = tbl_ids t
  ∧ (∀ k, k ≠ "SNRs" → getitem (data d) k = getitem t k)
  ∧ lams d = l ∧ fluxes d = f ∧ ivars d = v
  ∧ label_names d = names
  ∧ length snrs = table_len t
  ∧ (table_wf t → table_wf (data d)).
Proof.
  unfold init, add_column. destruct (contains t "SNRs"); [done|].
  case_decide as Hlen; [|done]. simpl. intros [= <-]. simpl.
  unfold SNRs, IDs, getitem. simpl. rewrite lookup_insert_eq.
  split; [done|]. split; [done|].
  split; [intros k Hk; by rewrite lookup_insert_ne|].
  repeat (split; [done|]).
  intros Hwf. unfold table_wf, table_len in *. simpl.
  by apply map_Forall_insert_2.
Qed.

End SelectionFacts.

(** ** The diagnostics, from end to end *)

Section RunFacts.
Context {N : Numeric}.
Variable corner : ndarray → list string → result unit.

Lemma column_rows (a : ndarray) (i : nat) (c : list num) :
  column a i = Ok c → length c = nrows a.
Proof.
  unfold column, nrows. case_decide; [|done].
  intros [= <-]. by rewrite length_map.
Qed.



(** The first loop, when it has what it needs, as one equation on the
    run. *)
Lemma flag_phase_run (reference_set test_set : Dataset)
    (names : list string) (reference_labels test_labels : ndarray)
    (w : World) :
  length names ≤ ncols reference_labels →
  length names ≤ ncols test_labels →
  nrows test_labels = length (IDs test_set) →
  ∃ w1,
    for_each (seq 0 (length names))
      (flag_label names test_labels (IDs test_set)
         (lower_bounds reference_labels) (upper_bounds reference_labels)) w
    = (w1, Ok tt)
    ∧ figures w1 = figures w
    ∧ (∃ rest, stdout w1 = stdout w ++ rest ∧ length rest = 3 * length names)
    ∧ (∀ f, (∀ i, i < length names → f ≠ flagged_filename i) →
         files w1 !! f = files w !! f)
    ∧ ∀ i, i < length names →
        ∃ warning,
          label_warning test_labels (lower_bounds reference_labels)
            (upper_bounds reference_labels) i = Ok warning
          ∧ files w1 !! flagged_filename i
            = Some (lines (compress warning (IDs test_set))).
Proof.
  intros Hcr Hct Hrows.
  destruct (flag_loop_run names test_labels (IDs test_set)
              (lower_bounds reference_labels) (upper_bounds reference_labels)
              (length names) 0 w)
    as (w1 & Hloop & Hfig & Hout & Hframe & Hfiles).
  { intros i [_ Hi]. simpl in Hi.
    destruct (lookup_lt_is_Some_2 names i Hi) as [name Hname].
    destruct (label_warning_ok reference_labels test_labels i)
      as (warning & Hwarn & Hlen); [lia..|].
    exists name, warning. by rewrite Hlen. }
  exists w1. split; [exact Hloop|]. split; [exact Hfig|].
  split; [exact Hout|]. split.
  - intros f Hf. apply Hframe. intros i Hi. apply Hf. lia.
  - intros i Hi.
    destruct (lookup_lt_is_Some_2 names i Hi) as [name Hname].
    destruct (label_warning_ok reference_labels test_labels i)
      as (warning & Hwarn & Hlen); [lia..|].
    exists warning. split; [exact Hwarn|].
    by destruct (Hfiles i name warning ltac:(lia) Hname Hwarn).
Qed.

Lemma postdiagnostics_unfold (reference_set test_set : Dataset)
    (triangle_plot_name : string) (w : World)
    (names : list string) (reference_labels test_labels : ndarray) :
  label_names reference_set = Some names →
  label_vals reference_set = Ok reference_labels →
  label_vals test_set = Ok test_labels →
  dataset_postdiagnostics corner reference_set test_set triangle_plot_name w
  = (for_each (seq 0 (length names))
       (flag_label names test_labels (IDs test_set)
          (lower_bounds reference_labels) (upper_bounds reference_labels)) ;;;
     label_triangle_plot corner test_set (Some triangle_plot_name) ;;;
     for_each (seq 0 (length names))
       (one_to_one_plot reference_set reference_labels test_labels)) w.
Proof.
  intros Hnames Href Htest. unfold dataset_postdiagnostics.
  rewrite Hnames, Href, Htest. simpl py_len.
  by rewrite !bind_lift_ok.
Qed.

(** When the label names of the reference set or the label array of
    either set cannot be read, the run raises before it writes, prints or
    saves anything. *)
Theorem postdiagnostics_unreadable (reference_set test_set : Dataset)
    (triangle_plot_name : string) (w : World) :
  label_names reference_set = None
  ∨ (∃ e, label_vals reference_set = Raise e)
  ∨ (∃ e, label_vals test_set = Raise e) →
  ∃ e,
    dataset_postdiagnostics corner reference_set test_set triangle_plot_name w
    = (w, Raise e).
Proof.
  unfold dataset_postdiagnostics.
  intros [Hnames|[[e He]|[e He]]].
  - rewrite Hnames. eexists. reflexivity.
  - destruct (label_names reference_set); [|eexists; reflexivity].
    simpl py_len. rewrite bind_lift_ok, He. eexists. reflexivity.
  - destruct (label_names reference_set); [|eexists; reflexivity].
    simpl py_len. rewrite bind_lift_ok.
    destruct (label_vals reference_set); [|eexists; reflexivity].
    rewrite bind_lift_ok, He. eexists. reflexivity.
Qed.


(** A run on a test set without plotting labels - as every dataset is
    that the constructor returns - writes the lists of flagged stars and
    then raises an [AttributeError] from the triangle plot: no figure is
    saved. *)
Theorem postdiagnostics_without_plotting_labels
    (reference_set test_set : Dataset) (triangle_plot_name : string)
    (w : World) (names : list string)
    (reference_labels test_labels table : ndarray) :
  label_names reference_set = Some names →
  label_vals reference_set = Ok reference_labels →
  label_vals test_set = Ok test_labels →
  length names ≤ ncols reference_labels →
  length names ≤ ncols test_labels →
  nrows test_labels = length (IDs test_set) →
  table_labels test_set = Ok table →
  label_names_tex test_set = None →
  ∃ w',
    dataset_postdiagnostics corner reference_set test_set triangle_plot_name w
    = (w', Raise (Exn "AttributeError"
                    "'Dataset' object has no attribute 'label_names_tex'"))
    ∧ figures w' = figures w
    ∧ ∀ i, i < length names → is_Some (files w' !! flagged_filename i).
Proof.
  intros Hnames Href Htest Hcr Hct Hrows Htable Htex.
  rewrite (postdiagnostics_unfold _ _ _ _ _ _ _ Hnames Href Htest).
  destruct (flag_phase_run reference_set test_set names reference_labels
              test_labels w Hcr Hct Hrows)
    as (w1 & Hloop & Hfig & _ & _ & Hfiles).
  rewrite (bind_ok _ _ _ _ _ Hloop).
  exists w1. split.
  - unfold bind at 1, label_triangle_plot.
    rewrite Htable, bind_lift_ok. unfold get_plotting_labels.
    by rewrite Htex.
  - split; [exact Hfig|]. intros i Hi.
    destruct (Hfiles i Hi) as (warning & _ & Hfile). by rewrite Hfile.
Qed.

(** When the test labels have fewer columns than the reference set has
    label names, the first loop writes the lists of the labels that have
    a column and raises an [IndexError] at the first label that has none;
    no list is written for that label or a later one, and no figure is
    saved. *)
Theorem postdiagnostics_too_few_columns (reference_set test_set : Dataset)
    (triangle_plot_name : string) (w : World) (names : list string)
    (reference_labels test_labels : ndarray) :
  label_names reference_set = Some names →
  label_vals reference_set = Ok reference_labels →
  label_vals test_set = Ok test_labels →
  ncols test_labels < length names →
  ncols test_labels ≤ ncols reference_labels →
  nrows test_labels = length (IDs test_set) →
  ∃ w',
    dataset_postdiagnostics corner reference_set test_set triangle_plot_name w
    = (w', Raise (IndexError_axis (ncols test_labels) 1 (ncols test_labels)))
    ∧ figures w' = figures w
    ∧ (∀ i, i < ncols test_labels → is_Some (files w' !! flagged_filename i))
    ∧ ∀ i, ncols test_labels ≤ i →
        files w' !! flagged_filename i = files w !! flagged_filename i.
Proof.
  intros Hnames Href Htest Hfew Hcr Hrows.
  rewrite (postdiagnostics_unfold _ _ _ _ _ _ _ Hnames Href Htest).
  set (k := ncols test_labels) in *.
  assert (Hsplit : seq 0 (length names)
                   = seq 0 k ++ k :: seq (S k) (length names - S k)).
  { replace (length names) with (k + S (length names - S k)) at 1 by lia.
    by rewrite seq_app. }
  destruct (flag_loop_run names test_labels (IDs test_set)
              (lower_bounds reference_labels) (upper_bounds reference_labels)
              k 0 w)
    as (w1 & Hloop & Hfig & _ & Hframe & Hfiles).
  { intros i [_ Hi]. simpl in Hi.
    destruct (lookup_lt_is_Some_2 names i ltac:(lia)) as [name Hname].
    destruct (label_warning_ok reference_labels test_labels i)
      as (warning & Hwarn & Hlen); [lia..|].
    exists name, warning. by rewrite Hlen. }
  exists w1. split; [|split; [exact Hfig|split]].
  - unfold bind at 1. rewrite Hsplit, for_each_app.
    rewrite (bind_ok _ _ _ _ _ Hloop). simpl for_each.
    destruct (lookup_lt_is_Some_2 names k ltac:(lia)) as [name Hname].
    unfold bind at 1, flag_label, item. rewrite Hname, bind_lift_ok.
    unfold label_warning, column. fold k.
    by rewrite decide_False by lia.
  - intros i Hi.
    destruct (lookup_lt_is_Some_2 names i ltac:(lia)) as [name Hname].
    destruct (label_warning_ok reference_labels test_labels i)
      as (warning & Hwarn & Hlen); [fold k; lia..|].
    destruct (Hfiles i name warning ltac:(lia) Hname Hwarn) as [Hfile _].
    by rewrite Hfile.
  - intros i Hi. apply Hframe.
    intros j Hj Heq%flagged_filename_inj. lia.
Qed.

(** A 1-1 plot of a label with no star in the reference column or in
    the test column raises the [ValueError] of [min], with the two
    columns of equal length or not, and leaves nothing behind. *)
Theorem one_to_one_plot_no_stars (reference_set : Dataset)
    (reference_labels test_labels : ndarray) (i : nat)
    (plotting : option (list string)) (name : string)
    (orig cannon : list num) (w : World) :
  get_plotting_labels reference_set = Ok plotting →
  py_getitem plotting i = Ok name →
  column reference_labels i = Ok orig →
  column test_labels i = Ok cannon →
  orig = [] ∨ cannon = [] →
  one_to_one_plot reference_set reference_labels test_labels i w
  = (w, Raise (Exn "ValueError" "min() arg is an empty sequence")).
Proof.
  intros Hplot Hname Horig Hcannon Hempty. unfold one_to_one_plot.
  rewrite Hplot, bind_lift_ok, Hname, bind_lift_ok.
  rewrite Horig, bind_lift_ok, Hcannon, bind_lift_ok.
  destruct orig as [|o orig]; [reflexivity|].
  destruct Hempty as [H|H]; [done|]. subst cannon. reflexivity.
Qed.

(** Running the diagnostics again on what a first run left changes no
    text file: every list of flagged stars is written anew with the same
    text. *)
Theorem postdiagnostics_files_idempotent (reference_set test_set : Dataset)
    (triangle_plot_name : string) (w : World) (names : list string)
    (reference_labels test_labels : ndarray) :
  label_names reference_set = Some names →
  label_vals reference_set = Ok reference_labels →
  label_vals test_set = Ok test_labels →
  length names ≤ ncols reference_labels →
  length names ≤ ncols test_labels →
  nrows test_labels = length (IDs test_set) →
  let run := dataset_postdiagnostics corner reference_set test_set
               triangle_plot_name in
  files (run (run w).1).1 = files (run w).1.
Proof.
  intros Hnames Href Htest Hcr Hct Hrows run. subst run.
  set (w1 := (dataset_postdiagnostics corner reference_set test_set
                triangle_plot_name w).1).
  destruct (postdiagnostics_flags corner reference_set test_set
              triangle_plot_name w names reference_labels test_labels
              Hnames Href Htest Hcr Hct Hrows) as [_ Hfirst].
  destruct (postdiagnostics_flags corner reference_set test_set
              triangle_plot_name w1 names reference_labels test_labels
              Hnames Href Htest Hcr Hct Hrows) as [Hframe Hsecond].
  fold w1 in Hfirst.
  apply map_eq. intros f.
  destruct (decide (Exists (λ j, f = flagged_filename j)
                      (seq 0 (length names)))) as [Hex|Hno].
  - apply Exists_exists in Hex as (j & Hj & ->).
    apply elem_of_seq in Hj.
    destruct (lookup_lt_is_Some_2 names j ltac:(lia)) as [name Hname].
    destruct (Hfirst j name Hname) as (m1 & Hm1 & _ & Hf1 & _).
    destruct (Hsecond j name Hname) as (m2 & Hm2 & _ & Hf2 & _).
    rewrite Hf1, Hf2. congruence.
  - apply Hframe. intros j Hj ->. apply Hno.
    apply Exists_exists. exists j. split; [|done].
    apply elem_of_seq. lia.
Qed.

(** [dataset_prediagnostics] writes no text file, whether it returns or
    raises. *)
Theorem prediagnostics_quiet (reference_set test_set : Dataset)
    (SNR_plot_name triangle_plot_name : string) :
  quiet (dataset_prediagnostics corner reference_set test_set
           SNR_plot_name triangle_plot_name).
Proof.
  unfold dataset_prediagnostics.
  repeat (apply quiet_bind; [|intros ?]);
    auto using label_triangle_plot_quiet with quiet.
Qed.



End RunFacts.

(** ** The reference set against itself *)

Section SelfFacts.





End SelfFacts.

(** ** Loading a dataset *)

Section FrameFacts.
Context {N : Numeric}.

(** On [DataFrame] itself the property [dataset] prints the loading line
    and raises a [TypeError] - [NotImplemented] is no exception class -
    and the frame has no dataset afterwards. *)
Theorem dataset_of_base_class (spec_dir label_file contpix_file : string)
    (out : list string) :
  dataset DataFrame_methods (new_frame spec_dir label_file contpix_file, out)
  = ((new_frame spec_dir label_file contpix_file, out ++ [loading_line]),
     Raise (Exn "TypeError" "'NotImplementedType' object is not callable")).
Proof. reflexivity. Qed.

(** A first access that finds no dataset loads one: it prints the loading
    line, asks for the spectra and then for the labels, and builds the
    dataset from the label table, the SNRs, and the three arrays in the
    order wavelengths, fluxes, inverse variances. The identifiers of the
    stars are those of the table; the list of identifiers that
    [get_reference_labels] returns is not used. *)
Theorem dataset_loads (cls : Methods) (self : DataFrame) (out : list string)
    (lambdas norm_fluxes norm_ivars : list (list num)) (snrs : list num)
    (ids : list string) (names : option (list string)) (t : Table)
    (d : Dataset) :
  _dataset self = None →
  get_spectra cls self = Ok (lambdas, norm_fluxes, norm_ivars, snrs) →
  get_reference_labels cls self = Ok (ids, names, t) →
  init t snrs lambdas norm_fluxes norm_ivars names = Ok d →
  dataset cls (self, out)
  = ((set__dataset (Some d) self, out ++ [loading_line]), Ok d)
  ∧ lams d = lambdas ∧ fluxes d = norm_fluxes ∧ ivars d = norm_ivars
  ∧ label_names d = names
  ∧ IDs d = tbl_ids t
  ∧ SNRs d = Ok snrs.
Proof.
  intros Hnone Hspectra Hlabels Hinit. split.
  - unfold dataset, load_dataset, bind, gets, modify, lift. simpl.
    rewrite Hnone. simpl. rewrite Hspectra. simpl. rewrite Hlabels. simpl.
    rewrite Hinit. reflexivity.
  - revert Hinit. unfold init, add_column. destruct (contains t "SNRs"); [done|].
    case_decide; [|done]. simpl. intros [= <-].
    unfold SNRs, IDs, getitem. simpl. by rewrite lookup_insert_eq.
Qed.

(** The dataset is loaded once: after an access that returned, the next
    access returns the same dataset and neither loads nor prints. *)
Theorem dataset_loaded_once (cls : Methods) (s s' : DataFrame * list string)
    (d : Dataset) :
  dataset cls s = (s', Ok d) →
  _dataset s'.1 = Some d ∧ dataset cls s' = (s', Ok d).
Proof.
  intros Hrun.
  assert (Hd : _dataset s'.1 = Some d).
  { revert Hrun. unfold dataset, bind at 1, gets at 1.
    destruct (_dataset s.1) as [d0|] eqn:Hs.
    - simpl. unfold bind, ret, gets. simpl. rewrite Hs.
      intros [= ? ?]. by subst.
    - simpl. unfold bind at 1.
      destruct (load_dataset cls s) as [s1 [[]|e]]; [|done].
      unfold gets. destruct (_dataset s1.1) eqn:Hs1; [|done].
      intros [= ? ?]. by subst. }
  split; [exact Hd|].
  unfold dataset, bind, gets, ret. simpl. rewrite Hd. simpl. by rewrite Hd.
Qed.

(** A load that fails leaves the frame without a dataset, so that the
    next access loads again: when [get_spectra] raises, [dataset] raises
    the same, with the loading line printed and nothing stored. *)
Theorem dataset_load_fails (cls : Methods) (self : DataFrame)
    (out : list string) (e : exn) :
  _dataset self = None →
  get_spectra cls self = Raise e →
  dataset cls (self, out) = ((self, out ++ [loading_line]), Raise e).
Proof.
  intros Hnone Hspectra.
  unfold dataset, load_dataset, bind, gets, modify. simpl.
  rewrite Hnone. simpl. by rewrite Hspectra.
Qed.

End FrameFacts.

(** ** The further properties on the sample data *)

Lemma choose_labels_all_resolved_witness :
  Forall (resolves survey) ["T"; "logg"]
  ∧ choose_labels ["T"; "logg"] survey
    = (set_label_names
         (Some (map (resolve_alias (data survey)) ["T"; "logg"])) survey,
       Ok tt)
  ∧ Forall (λ key, is_Some (tbl_cols (data survey) !! key))
      (map (resolve_alias (data survey)) ["T"; "logg"]).
Proof.
  assert (H : Forall (resolves survey) ["T"; "logg"])
    by (repeat constructor).
  split; [exact H|].
  exact (choose_labels_all_resolved ["T"; "logg"] survey H).
Defined.

Lemma choose_labels_then_label_vals_witness :
  _label_vals survey = None
  ∧ table_wf (data survey)
  ∧ Forall (resolves survey) ["T"; "logg"]
  ∧ ∃ M, label_vals (choose_labels ["T"; "logg"] survey).1 = Ok M
         ∧ ncols M = length ["T"; "logg"]
         ∧ (["T"; "logg"] ≠ [] → nrows M = table_len (data survey))
         ∧ ∀ j k, ["T"; "logg"] !! j = Some k →
             ∃ c, tbl_cols (data survey) !! resolve_alias (data survey) k
                  = Some c
                  ∧ column M j = Ok c.
Proof.
  assert (H : Forall (resolves survey) ["T"; "logg"])
    by (repeat constructor).
  split; [reflexivity|]. split; [exact three_stars_wf|]. split; [exact H|].
  exact (choose_labels_then_label_vals ["T"; "logg"] survey
           eq_refl three_stars_wf H).
Defined.

Lemma choose_objects_rows_witness :
  table_wf (data survey)
  ∧ ∃ self',
      choose_objects no_conditions (MaskArray [true; false; true]) survey
      = (self', Ok tt)
      ∧ IDs self' = ["s0"; "s2"]
      ∧ table_wf (data self')
      ∧ table_len (data self') = 2.
Proof.
  split; [exact three_stars_wf|].
  destruct (choose_objects_rows no_conditions [true; false; true] survey
              three_stars_wf eq_refl eq_refl eq_refl)
    as (self' & Hrun & Hids & _ & _ & _ & Hwf & Hlen).
  exists self'. split; [exact Hrun|]. split; [exact Hids|].
  split; [exact Hwf|]. exact Hlen.
Defined.

Lemma choose_objects_all_true_witness :
  table_wf (data survey)
  ∧ length (fluxes survey) = table_len (data survey)
  ∧ length (ivars survey) = table_len (data survey)
  ∧ choose_objects no_conditions
      (MaskArray (repeat true (table_len (data survey)))) survey
    = (survey, Ok tt).
Proof.
  split; [exact three_stars_wf|]. split; [reflexivity|]. split; [reflexivity|].
  exact (choose_objects_all_true no_conditions survey three_stars_wf
           eq_refl eq_refl).
Defined.

Lemma choose_objects_refused_witness :
  select (data survey) [true]
  = Raise (Exn "IndexError"
      ("boolean index did not match indexed array along axis 0; size of axis is "
       +:+ "3" +:+ " but size of corresponding boolean axis is " +:+ "1"))
  ∧ ∃ e, choose_objects no_conditions (MaskArray [true]) survey
         = (survey, Raise e).
Proof.
  split; [reflexivity|]. eexists.
  apply (choose_objects_refused no_conditions (MaskArray [true]) survey).
  reflexivity.
Defined.



Lemma init_round_trip_witness :
  init three_stars ([100; 50; 75]%float : list (@num binary64))
    (lams survey) (fluxes survey) (ivars survey) (Some ["logg"]) = Ok loaded
  ∧ SNRs loaded = Ok ([100; 50; 75]%float : list (@num binary64))
  ∧ IDs loaded = tbl_ids three_stars
  ∧ (∀ k, k ≠ "SNRs" → getitem (data loaded) k = getitem three_stars k)
  ∧ lams loaded = lams survey
  ∧ fluxes loaded = fluxes survey
  ∧ ivars loaded = ivars survey
  ∧ label_names loaded = Some ["logg"]
  ∧ length ([100; 50; 75]%float : list (@num binary64))
    = table_len three_stars
  ∧ (table_wf three_stars → table_wf (data loaded)).
Proof.
  split; [reflexivity|].
  exact (init_round_trip three_stars
           ([100; 50; 75]%float : list (@num binary64))
           (lams survey) (fluxes survey) (ivars survey) (Some ["logg"])
           loaded eq_refl).
Defined.

Lemma postdiagnostics_unreadable_witness :
  label_names (set_label_names None reference) = None
  ∧ ∃ e,
      dataset_postdiagnostics corner_drawn (set_label_names None reference)
        survey "tri.png" empty_world
      = (empty_world, Raise e).
Proof.
  split; [reflexivity|].
  apply (postdiagnostics_unreadable corner_drawn
           (set_label_names None reference) survey "tri.png" empty_world).
  left. reflexivity.
Defined.


Lemma postdiagnostics_without_plotting_labels_witness :
  label_names_tex loaded = None
  ∧ ∃ w',
      dataset_postdiagnostics corner_drawn reference loaded "tri.png"
        empty_world
      = (w', Raise (Exn "AttributeError"
                      "'Dataset' object has no attribute 'label_names_tex'"))
      ∧ figures w' = figures empty_world
      ∧ ∀ i, i < length ["logg"] → is_Some (files w' !! flagged_filename i).
Proof.
  split; [reflexivity|].
  apply (postdiagnostics_without_plotting_labels corner_drawn reference loaded
           "tri.png" empty_world ["logg"] reference_logg survey_logg
           survey_logg);
    try reflexivity; simpl; lia.
Defined.

Lemma postdiagnostics_too_few_columns_witness :
  label_names (set_label_names (Some ["logg"; "teff"]) survey)
  = Some ["logg"; "teff"]
  ∧ ncols survey_logg < length ["logg"; "teff"]
  ∧ ∃ w',
      dataset_postdiagnostics corner_drawn
        (set_label_names (Some ["logg"; "teff"]) survey) survey "tri.png"
        empty_world
      = (w', Raise (IndexError_axis (ncols survey_logg) 1 (ncols survey_logg)))
      ∧ figures w' = figures empty_world
      ∧ (∀ i, i < ncols survey_logg →
           is_Some (files w' !! flagged_filename i))
      ∧ ∀ i, ncols survey_logg ≤ i →
          files w' !! flagged_filename i
          = files empty_world !! flagged_filename i.
Proof.
  split; [reflexivity|]. split; [simpl; lia|].
  apply (postdiagnostics_too_few_columns corner_drawn
           (set_label_names (Some ["logg"; "teff"]) survey) survey "tri.png"
           empty_world ["logg"; "teff"]
           (@np_array_T binary64
              [[4; 4.25; 3.5]; [5000; 5100; 4900]]%float)
           survey_logg);
    try reflexivity; simpl; lia.
Defined.

Lemma one_to_one_plot_no_stars_witness :
  column no_stars 0 = Ok []
  ∧ one_to_one_plot reference no_stars no_stars 0 empty_world
    = (empty_world, Raise (Exn "ValueError" "min() arg is an empty sequence")).
Proof.
  split; [reflexivity|].
  apply (one_to_one_plot_no_stars reference no_stars no_stars 0
           (Some ["logg"]) "logg" [] []); try reflexivity.
  by left.
Defined.

Lemma postdiagnostics_files_idempotent_witness :
  label_vals reference = Ok reference_logg
  ∧ label_vals survey = Ok survey_logg
  ∧ files (dataset_postdiagnostics corner_drawn reference survey "tri.png"
             (dataset_postdiagnostics corner_drawn reference survey "tri.png"
                empty_world).1).1
    = files (dataset_postdiagnostics corner_drawn reference survey "tri.png"
               empty_world).1.
Proof.
  split; [reflexivity|]. split; [reflexivity|].
  apply (postdiagnostics_files_idempotent corner_drawn reference survey
           "tri.png" empty_world ["logg"] reference_logg survey_logg);
    try reflexivity; simpl; lia.
Defined.




Lemma dataset_loads_witness :
  dataset three_stars_methods (new_frame "spectra" "labels.txt" "pix.txt", [])
  = ((set__dataset (Some loaded)
        (new_frame "spectra" "labels.txt" "pix.txt"), [] ++ [loading_line]),
     Ok loaded)
  ∧ lams loaded = lams survey ∧ fluxes loaded = fluxes survey
  ∧ ivars loaded = ivars survey
  ∧ label_names loaded = Some ["logg"]
  ∧ IDs loaded = tbl_ids three_stars
  ∧ SNRs loaded = Ok ([100; 50; 75]%float : list (@num binary64)).
Proof.
  exact (dataset_loads three_stars_methods
           (new_frame "spectra" "labels.txt" "pix.txt") []
           _ _ _ _ ["a"; "b"; "c"] (Some ["logg"]) three_stars loaded
           eq_refl eq_refl eq_refl eq_refl).
Defined.

Lemma dataset_loaded_once_witness :
  dataset three_stars_methods (new_frame "spectra" "labels.txt" "pix.txt", [])
  = ((set__dataset (Some loaded)
        (new_frame "spectra" "labels.txt" "pix.txt"), [loading_line]),
     Ok loaded)
  ∧ dataset three_stars_methods
      (set__dataset (Some loaded)
         (new_frame "spectra" "labels.txt" "pix.txt"), [loading_line])
    = ((set__dataset (Some loaded)
          (new_frame "spectra" "labels.txt" "pix.txt"), [loading_line]),
       Ok loaded).
Proof.
  split; [reflexivity|].
  exact (proj2 (dataset_loaded_once three_stars_methods
                  (new_frame "spectra" "labels.txt" "pix.txt", [])
                  (set__dataset (Some loaded)
                     (new_frame "spectra" "labels.txt" "pix.txt"),
                   [loading_line])
                  loaded eq_refl)).
Defined.

Lemma dataset_load_fails_witness :
  dataset (@DataFrame_methods binary64)
    (new_frame "spectra" "labels.txt" "pix.txt", ["ready"])
  = ((new_frame "spectra" "labels.txt" "pix.txt", ["ready"] ++ [loading_line]),
     Raise not_callable).
Proof.
  exact (dataset_load_fails (@DataFrame_methods binary64)
           (new_frame "spectra" "labels.txt" "pix.txt") ["ready"]
           not_callable eq_refl eq_refl).
Defined.
